(** * Endee RAG assistant: the word-window chunker and the query orchestrator

    A shallow embedding of
      - [src/ingestion/chunker.py]      (class [TextChunker]),
      - [src/retrieval/query_engine.py] (class [QueryEngine]),
      - [src/endee/endee_client.py]     (method [EndeeClient.search_vectors]),
    and the properties of the specification that concern them.

    Python values are modelled as follows.
      - [str]  : a list of Unicode code points ([N]).
      - [int]  : [Z].
      - [list] : [list]; slices follow Python's rules for negative and
                 out-of-range bounds ([py_slice]).
      - a call that may raise : the [result] type ([Ok] / [Raise]).
      - a [while] loop that may not terminate : a function with fuel that
        returns [None] when the fuel is used up.
    Calls to the logger are not modelled. *)

From Stdlib Require Import String Ascii DecimalString.
From Stdlib Require Import List ZArith NArith Lia Bool Floats.
From Stdlib Require DecimalPos DecimalZ FinFun.
Import ListNotations.

(* ================================================================== *)
(** * Python strings *)
(* ================================================================== *)

Definition str : Type := list N.

(** An ASCII literal as a Python string. *)
Definition py (s : string) : str := map N_of_ascii (list_ascii_of_string s).

(** [str.isspace] on one code point: the white space of the Unicode
    database, which is what [str.split()] and [str.strip()] look at. *)
Definition isspace (c : N) : bool :=
  (((9 <=? c) && (c <=? 13)) || ((28 <=? c) && (c <=? 32))
   || (c =? 133) || (c =? 160) || (c =? 5760)
   || ((8192 <=? c) && (c <=? 8202))
   || (c =? 8232) || (c =? 8233) || (c =? 8239) || (c =? 8287)
   || (c =? 12288))%N.

(** [text.split()]: the maximal runs of characters that are not white
    space.  [split] scans between two words, [in_word] inside a word; it
    returns the rest of the current word and the words after it. *)
Fixpoint split (s : str) : list str :=
  match s with
  | [] => []
  | c :: s' =>
      if isspace c then split s'
      else let (w, ws) := in_word s' in (c :: w) :: ws
  end
with in_word (s : str) : str * list str :=
  match s with
  | [] => ([], [])
  | c :: s' =>
      if isspace c then ([], split s')
      else let (w, ws) := in_word s' in (c :: w, ws)
  end.

(** [text.lstrip()], [text.rstrip()], [text.strip()]. *)
Fixpoint lstrip (s : str) : str :=
  match s with
  | [] => []
  | c :: s' => if isspace c then lstrip s' else s
  end.

Definition rstrip (s : str) : str := rev (lstrip (rev s)).

Definition strip (s : str) : str := rstrip (lstrip s).

(** [sep.join(parts)]. *)
Fixpoint join (sep : str) (parts : list str) : str :=
  match parts with
  | [] => []
  | [w] => w
  | w :: rest => w ++ sep ++ join sep rest
  end.

(** [not s] for a string or a list. *)
Definition falsy {A : Type} (l : list A) : bool :=
  match l with [] => true | _ :: _ => false end.

(** [str(n)] for an integer. *)
Definition str_of_int (n : Z) : str := py (NilZero.string_of_int (Z.to_int n)).

(* ================================================================== *)
(** * Python lists *)
(* ================================================================== *)

Section PyList.
Context {A : Type}.
Local Open Scope Z_scope.

(** A slice bound brought into [0 .. n], as [PySlice_AdjustIndices]
    does for a step of one. *)
Definition adjust_index (n i : Z) : Z :=
  if i <? 0 then (if i + n <? 0 then 0 else i + n)
  else if n <? i then n else i.

(** [l[start:stop]]. *)
Definition py_slice (l : list A) (start stop : Z) : list A :=
  let n := Z.of_nat (length l) in
  let a := adjust_index n start in
  let b := adjust_index n stop in
  firstn (Z.to_nat (b - a)) (skipn (Z.to_nat a) l).

(** [enumerate(l, start)]. *)
Fixpoint enumerate (start : Z) (l : list A) : list (Z * A) :=
  match l with
  | [] => []
  | x :: l' => (start, x) :: enumerate (start + 1) l'
  end.
End PyList.

(* ================================================================== *)
(** * Exceptions *)
(* ================================================================== *)

(** The classes of exception the modelled code meets.  The first four are
    what [requests] raises at the network boundary. *)
Inductive exception_class : Type :=
| ConnectionError
| Timeout
| HTTPError
| JSONDecodeError
| RuntimeError
| ValueError
| KeyboardInterrupt
| SystemExit.

Record exception : Type := mkException {
  exc_class : exception_class;
  exc_message : str
}.

(** [isinstance(e, Exception)]: everything but the two classes that derive
    from [BaseException] directly.  This is what [except Exception] catches. *)
Definition is_Exception (e : exception) : bool :=
  match exc_class e with
  | KeyboardInterrupt | SystemExit => false
  | _ => true
  end.

(** [str(e)]. *)
Definition str_of_exception (e : exception) : str := exc_message e.

Inductive result (A : Type) : Type :=
| Ok (a : A)
| Raise (e : exception).
Arguments Ok {A} a.
Arguments Raise {A} e.

Definition bind {A B : Type} (r : result A) (k : A -> result B) : result B :=
  match r with
  | Ok a => k a
  | Raise e => Raise e
  end.

(** [try: body  except Exception as e: handler(e)]. *)
Definition try_except {A : Type} (body : result A)
    (handler : exception -> result A) : result A :=
  match body with
  | Ok a => Ok a
  | Raise e => if is_Exception e then handler e else Raise e
  end.

Declare Scope py_scope.
Delimit Scope py_scope with pym.
Notation "x <- c ;; k" := (bind c (fun x => k))
  (at level 100, c at next level, right associativity) : py_scope.

(* ================================================================== *)
(** * [ingestion/chunker.py] *)
(* ================================================================== *)

Module ChunkInfo.
(** The dict [chunk_documents] builds for every chunk. *)
Record t : Type := mk {
  filename : str;
  chunk_id : Z;
  chunk_text : str;
  total_chunks : Z
}.
End ChunkInfo.

Module TextChunker.
Local Open Scope Z_scope.

Record t : Type := mk {
  chunk_size : Z;
  overlap : Z
}.

(** [TextChunker.__init__(chunk_size=512, overlap=50)]: the two values
    are stored; nothing is checked. *)
Definition __init__ (chunk_size overlap : Z) : result t :=
  Ok (mk chunk_size overlap).

Definition default : result t := __init__ 512 50.

(** [_estimate_tokens]. *)
Definition _estimate_tokens (text : str) : Z :=
  Z.of_nat (length (split text)).

(** The [while] loop of [chunk_text], from the state
    [(start_idx, chunks)].  One unit of fuel pays for one run of the
    body. *)
Fixpoint chunk_loop (fuel : nat) (self : t) (words : list str)
    (start_idx : Z) (chunks : list str) : option (list str) :=
  let total_words := Z.of_nat (length words) in
  if start_idx <? total_words then
    match fuel with
    | O => None
    | S fuel' =>
        let end_idx := Z.min (start_idx + chunk_size self) total_words in
        let chunk_words := py_slice words start_idx end_idx in
        let chunk_text := join (py " ") chunk_words in
        let chunks := chunks ++ [chunk_text] in
        let start_idx := start_idx + (chunk_size self - overlap self) in
        if start_idx >=? total_words then Some chunks
        else chunk_loop fuel' self words start_idx chunks
    end
  else Some chunks.

(** [chunk_text]; [None] when the loop has not ended within [fuel]
    iterations. *)
Definition chunk_text (fuel : nat) (self : t) (text : str)
    : option (list str) :=
  if falsy text || falsy (strip text) then Some []
  else
    let words := split text in
    let total_words := Z.of_nat (length words) in
    if total_words <=? chunk_size self then Some [text]
    else chunk_loop fuel self words 0 [].

(** The body of the outer [for] of [chunk_documents] for one document
    whose chunks are known. *)
Definition chunk_infos (filename : str) (chunks : list str)
    : list ChunkInfo.t :=
  map (fun '(idx, chunk_text) =>
         ChunkInfo.mk filename idx chunk_text (Z.of_nat (length chunks)))
      (enumerate 1 chunks).

Fixpoint chunk_documents_loop (fuel : nat) (self : t)
    (documents : list (str * str)) (all_chunks : list ChunkInfo.t)
    : option (list ChunkInfo.t) :=
  match documents with
  | [] => Some all_chunks
  | (filename, content) :: rest =>
      match chunk_text fuel self content with
      | None => None
      | Some chunks =>
          chunk_documents_loop fuel self rest
            (all_chunks ++ chunk_infos filename chunks)
      end
  end.

(** [chunk_documents]; every call of [chunk_text] gets [fuel]. *)
Definition chunk_documents (fuel : nat) (self : t)
    (documents : list (str * str)) : option (list ChunkInfo.t) :=
  chunk_documents_loop fuel self documents [].
End TextChunker.

(* ================================================================== *)
(** * Records exchanged with the vector store *)
(* ================================================================== *)

Module Metadata.
(** The [metadata] dict of a search result; a field is [None] when the
    key is absent. *)
Record t : Type := mk {
  chunk_text : option str;
  source_file : option str;
  chunk_id : option Z
}.

(** The empty dict [{}]. *)
Definition empty : t := mk None None None.
End Metadata.

Module SearchResult.
(** One element of the list [search_vectors] returns. *)
Record t : Type := mk {
  metadata : option Metadata.t;
  score : option float
}.
End SearchResult.

Module SourceInfo.
(** One element of [sources_info]. *)
Record t : Type := mk {
  source_file : str;
  chunk_id : Z;
  similarity_score : float;
  chunk_text : str
}.
End SourceInfo.

Module QueryOutcome.
(** The dict [QueryEngine.query] returns.  [query] and [answer] are in
    every one; the other keys are [None] when the dict lacks them. *)
Record t : Type := mk {
  query : str;
  answer : str;
  sources : option (list SourceInfo.t);
  num_sources : option Z;
  error : option str
}.
End QueryOutcome.

(** [d.get(key, default)] on an optional field. *)
Definition get {A : Type} (field : option A) (default : A) : A :=
  match field with
  | Some a => a
  | None => default
  end.

(* ================================================================== *)
(** * [endee/endee_client.py]: [search_vectors] *)
(* ================================================================== *)

Module EndeeClient.
Local Open Scope Z_scope.

(** What [response.json()] gives, as far as [search_vectors] tells the
    cases apart: an object with or without the key [results], an array,
    anything else.  The results are taken to be well typed, as the
    annotation [List[Dict[str, Any]]] of the method says. *)
Inductive json_value : Type :=
| JsonObject (results : option (list SearchResult.t))
| JsonArray (items : list SearchResult.t)
| JsonOther.

(** A [requests.Response]: [json] is the outcome of [response.json()]. *)
Record Response : Type := mkResponse {
  status_code : Z;
  text : str;
  json : result json_value
}.

Record SearchPayload : Type := mkPayload {
  vector : list float;
  k : Z;
  include_vectors : bool
}.

Record t : Type := mk {
  base_url : str
}.

(** The f-string that gives the address of the search request. *)
Definition search_url (self : t) (collection_name : str) : str :=
  base_url self ++ py "/api/v1/index/" ++ collection_name ++ py "/search".

Section Transport.
(** [requests.post(url, json=payload, timeout=timeout)]. *)
Variable post : str -> SearchPayload -> Z -> result Response.

Definition search_vectors (self : t) (collection_name : str)
    (query_vector : list float) (top_k : Z) (include_metadata : bool)
    : result (list SearchResult.t) :=
  let url := search_url self collection_name in
  let payload := mkPayload query_vector top_k false in
  try_except
    (response <- post url payload 60 ;;
     if negb (status_code response =? 200) then Ok []
     else
       try_except
         (data <- json response ;;
          match data with
          | JsonObject results => Ok (get results [])
          | JsonArray items => Ok items
          | JsonOther => Ok []
          end)
         (fun _ => Ok []))%pym
    (fun e => Ok []).
End Transport.
End EndeeClient.

(* ================================================================== *)
(** * [retrieval/query_engine.py] *)
(* ================================================================== *)

Module QueryEngine.
Local Open Scope Z_scope.

Definition newline : str := [10%N].

(** The three fixed answers of [query]. *)
Definition search_error_answer : str :=
  py "Error: Could not retrieve relevant information from the knowledge base.".
Definition no_results_answer : str :=
  py "I don't have enough information in the knowledge base to answer this question.".
Definition generation_error_answer : str :=
  py "Error: Could not generate a response.".

(** An answer of the error class starts with [Error:]. *)
Definition is_error_answer (answer : str) : bool :=
  if list_eq_dec N.eq_dec (firstn 6 answer) (py "Error:") then true
  else false.

Section Engine.
(** The collaborators handed to [QueryEngine.__init__], each by the one
    method [query] calls, and the two settings. *)
Variable encode : str -> result (list float).
Variable search_vectors :
  str -> list float -> Z -> bool -> result (list SearchResult.t).
Variable generate_response :
  str -> str -> list SourceInfo.t -> result (option str).
Variable collection_name : str.
Variable top_k : Z.
(** The builtin [round(x, ndigits)] on floats. *)
Variable round : float -> Z -> float.

(** Step 3: the body of the [for] loop over the search results, for
    the result at position [idx]. *)
Definition context_part (idx : Z) (r : SearchResult.t) : str :=
  let metadata := get (SearchResult.metadata r) Metadata.empty in
  let chunk_text := get (Metadata.chunk_text metadata) [] in
  let source_file := get (Metadata.source_file metadata) (py "unknown") in
  py "[Source " ++ str_of_int idx ++ py ": " ++ source_file ++ py "]"
    ++ newline ++ chunk_text.

Definition source_info (r : SearchResult.t) : SourceInfo.t :=
  let metadata := get (SearchResult.metadata r) Metadata.empty in
  let chunk_text := get (Metadata.chunk_text metadata) [] in
  let source_file := get (Metadata.source_file metadata) (py "unknown") in
  let score := get (SearchResult.score r) 0%float in
  SourceInfo.mk source_file
    (get (Metadata.chunk_id metadata) 0)
    (round score 3)
    (if 200 <? Z.of_nat (length chunk_text)
     then firstn 200 chunk_text ++ py "..."
     else chunk_text).

Definition query (question : str) (verbose : bool)
    : result QueryOutcome.t :=
  (* Step 1: outside every [try] *)
  (query_embedding <- encode question ;;
   (* Step 2: [try: ... except Exception as e: return {...}] *)
   match search_vectors collection_name query_embedding top_k true with
   | Raise e =>
       if is_Exception e then
         Ok (QueryOutcome.mk question search_error_answer (Some [])
               None (Some (str_of_exception e)))
       else Raise e
   | Ok search_results =>
       if falsy search_results then
         Ok (QueryOutcome.mk question no_results_answer (Some [])
               None None)
       else
         (* Step 3 *)
         let context_parts :=
           map (fun '(idx, r) => context_part idx r)
               (enumerate 1 search_results) in
         let sources_info := map source_info search_results in
         let full_context := join (newline ++ newline) context_parts in
         (* Step 4 *)
         answer <- generate_response full_context question sources_info ;;
         if falsy (get answer []) then
           Ok (QueryOutcome.mk question generation_error_answer
                 (Some (if verbose then sources_info else []))
                 None None)
         else
           (* Step 5 *)
           Ok (QueryOutcome.mk question (get answer [])
                 (if verbose then Some sources_info else None)
                 (if verbose
                  then Some (Z.of_nat (length sources_info))
                  else None)
                 None)
   end)%pym.
End Engine.

(** The engine of [main.query_knowledge_base]: the search is
    [EndeeClient.search_vectors] over the transport [post]. *)
Definition query_endee
    (encode : str -> result (list float))
    (post : str -> EndeeClient.SearchPayload -> Z -> result EndeeClient.Response)
    (generate_response : str -> str -> list SourceInfo.t -> result (option str))
    (client : EndeeClient.t) (collection_name : str) (top_k : Z)
    (round : float -> Z -> float)
    (question : str) (verbose : bool) : result QueryOutcome.t :=
  query encode (EndeeClient.search_vectors post client)
    generate_response collection_name top_k round question verbose.
End QueryEngine.

(* ================================================================== *)
(** * Sample inputs *)
(* ================================================================== *)

Module Samples.
Local Open Scope Z_scope.

(** A text of [n] words [w0 w1 ...] separated by one blank. *)
Definition sample_text (n : nat) : str :=
  join (py " ")
    (map (fun i => py "w" ++ str_of_int (Z.of_nat i)) (seq 0 n)).

(** An embedder that works and one whose model fails to load. *)
Definition encode_ok (_ : str) : result (list float) :=
  Ok [0.5%float; 0.25%float].
Definition encode_failing (_ : str) : result (list float) :=
  Raise (mkException RuntimeError (py "model could not be loaded")).

(** A transport that cannot reach the store, and one that answers with
    an empty result list. *)
Definition connection_refused : exception :=
  mkException ConnectionError (py "Connection refused").
Definition post_refused (_ : str) (_ : EndeeClient.SearchPayload) (_ : Z)
    : result EndeeClient.Response :=
  Raise connection_refused.
Definition post_no_results (_ : str) (_ : EndeeClient.SearchPayload)
    (_ : Z) : result EndeeClient.Response :=
  Ok (EndeeClient.mkResponse 200 (py "{}")
        (Ok (EndeeClient.JsonObject None))).

(** A store client whose [search_vectors] itself raises. *)
Definition search_raising (_ : str) (_ : list float) (_ : Z) (_ : bool)
    : result (list SearchResult.t) :=
  Raise connection_refused.
Definition search_empty (_ : str) (_ : list float) (_ : Z) (_ : bool)
    : result (list SearchResult.t) :=
  Ok [].

Definition generate_fixed (_ _ : str) (_ : list SourceInfo.t)
    : result (option str) :=
  Ok (Some (py "Based on the knowledge base, here's what I found:")).

Definition round_id (x : float) (_ : Z) : float := x.

Definition client : EndeeClient.t := EndeeClient.mk (py "http://localhost:8080").
Definition collection : str := py "knowledge_base".
Definition question : str := py "What is X?".
End Samples.

(* ================================================================== *)
(** * [retrieval/llm_client.py] *)
(* ================================================================== *)

Module LLMClient.
Local Open Scope Z_scope.

Definition newline : str := [10%N].

(** The first and the last element of [response_parts]. *)
Definition header : str :=
  py "Based on the knowledge base, here's what I found:" ++ newline.
Definition footer : str :=
  newline
    ++ py "Note: This answer is compiled directly from the documents in the knowledge base. "
    ++ py "For more detailed information, please refer to the source documents listed above.".

Section Formatter.
(** The format [f"{score:.2f}"] of a float. *)
Variable format_2f : float -> str.

(** The two elements the [for] loop appends for the source at position
    [idx]. *)
Definition source_parts (idx : Z) (source : SourceInfo.t) : list str :=
  let chunk_text := SourceInfo.chunk_text source in
  let source_file := SourceInfo.source_file source in
  let score := SourceInfo.similarity_score source in
  [ newline ++ str_of_int idx ++ py ". From " ++ source_file
      ++ py " (relevance: " ++ format_2f score ++ py "):";
    py "   " ++ chunk_text ++ newline ].

(** [generate_response(context, query, sources)]; [sources] is [None] or
    a list of the dicts [QueryEngine.query] builds.  [query] only goes to
    the logger. *)
Definition generate_response (context query : str)
    (sources : option (list SourceInfo.t)) : result (option str) :=
  try_except
    (let response_parts := [header] in
     let response_parts :=
       response_parts
         ++ (if negb (falsy (get sources []))
             then flat_map (fun '(idx, source) => source_parts idx source)
                    (enumerate 1 (get sources []))
             else [newline ++ context ++ newline]) in
     let response_parts := response_parts ++ [footer] in
     let answer := join newline response_parts in
     Ok (Some answer))
    (fun _ => Ok None).
End Formatter.
End LLMClient.


(* ================================================================== *)
(** * Calls that change the world *)
(* ================================================================== *)

(** What a method of the client raises: a plain [Exception(message)] it
    builds itself, or an exception of the layers below that it lets
    through. *)
Inductive raised : Type :=
| PlainException (message : str)
| Passed (e : exception).

(** What [except Exception] catches, and [str(e)]. *)
Definition caught (r : raised) : bool :=
  match r with
  | PlainException _ => true
  | Passed e => is_Exception e
  end.

Definition str_of_raised (r : raised) : str :=
  match r with
  | PlainException message => message
  | Passed e => str_of_exception e
  end.

Inductive outcome (A : Type) : Type :=
| Returned (a : A)
| Raised (r : raised).
Arguments Returned {A} a.
Arguments Raised {A} r.

Definition outcome_of_result {A : Type} (r : result A) : outcome A :=
  match r with
  | Ok a => Returned a
  | Raise e => Raised (Passed e)
  end.

(** A call that reads and changes the world [W] (the network, the clock,
    the file system) and returns or raises. *)
Definition io (W A : Type) : Type := W -> W * outcome A.

(** [range(start, stop, step)] for a positive [step]. *)
Definition py_range (start stop step : Z) : list Z :=
  let n := if (start <? stop)%Z then ((stop - start - 1) / step + 1)%Z
           else 0%Z in
  map (fun k => (start + Z.of_nat k * step)%Z) (seq 0 (Z.to_nat n)).

(** [s.rstrip(chars)]. *)
Fixpoint lstrip_chars (chars s : str) : str :=
  match s with
  | [] => []
  | c :: s' => if existsb (N.eqb c) chars then lstrip_chars chars s' else s
  end.

Definition rstrip_chars (chars s : str) : str :=
  rev (lstrip_chars chars (rev s)).

(* ================================================================== *)
(** * [main.py]: the vectors sent to the store *)
(* ================================================================== *)

Module VectorMetadata.
Record t : Type := mk {
  source_file : str;
  chunk_id : Z;
  chunk_text : str;
  timestamp : str;
  total_chunks : Z
}.
End VectorMetadata.

Module Vector.
(** The dict [vector_obj] of [ingest_documents]. *)
Record t : Type := mk {
  id : str;
  vector : list float;
  metadata : VectorMetadata.t
}.
End Vector.

(* ================================================================== *)
(** * [endee/endee_client.py]: the other methods *)
(* ================================================================== *)

Module EndeeClientIO.
Local Open Scope Z_scope.

(** [EndeeClient.__init__]. *)
Definition __init__ (base_url : str) : EndeeClient.t :=
  EndeeClient.mk (rstrip_chars (py "/") base_url).

(** [isinstance(e, requests.exceptions.RequestException)]. *)
Definition is_RequestException (e : exception) : bool :=
  match exc_class e with
  | ConnectionError | Timeout | HTTPError | JSONDecodeError => true
  | _ => false
  end.

(** The test of [response.raise_for_status()]. *)
Definition is_http_error (response : EndeeClient.Response) : bool :=
  (400 <=? EndeeClient.status_code response)
  && (EndeeClient.status_code response <? 600).

Record CreatePayload : Type := mkCreatePayload {
  index_name : str;
  dim : Z;
  space_type : str
}.

Record Meta : Type := mkMeta {
  text : str;
  source : str
}.

(** One element of [formatted_vectors]. *)
Record FormattedVector : Type := mkFormattedVector {
  id : str;
  vector : list float;
  meta : Meta
}.

(** What [create_collection] returns: the decoded body, or one of its two
    dicts of its own. *)
Inductive create_result : Type :=
| CreateBody (body : EndeeClient.json_value)
| Created (index_name : str)
| AlreadyExists (index_name : str).

(** What [insert_vectors] returns: the decoded body, or [True]. *)
Inductive insert_result : Type :=
| InsertBody (body : EndeeClient.json_value)
| InsertTrue.

Definition format_vector (vec : Vector.t) : FormattedVector :=
  mkFormattedVector (Vector.id vec) (Vector.vector vec)
    (mkMeta (VectorMetadata.chunk_text (Vector.metadata vec))
            (VectorMetadata.source_file (Vector.metadata vec))).

Section Transport.
Context {W : Type}.
(** [requests.get(url, timeout=...)] and [requests.post(url, json=...,
    headers=..., timeout=...)].  An exception they raise carries no
    response. *)
Variable get : str -> Z -> W -> W * result EndeeClient.Response.
Variable post_create :
  str -> CreatePayload -> Z -> W -> W * result EndeeClient.Response.
Variable post_insert :
  str -> list FormattedVector -> Z -> W -> W * result EndeeClient.Response.
(** [str(e)] for the [HTTPError] that [raise_for_status()] raises. *)
Variable http_error_message : EndeeClient.Response -> str.

Definition create_collection (self : EndeeClient.t) (name : str)
    (dimension : Z) : io W create_result :=
  fun w =>
    let url := EndeeClient.base_url self ++ py "/api/v1/index/create" in
    let payload := mkCreatePayload name dimension (py "cosine") in
    match post_create url payload 10 w with
    | (w', Ok response) =>
        if is_http_error response then
          (* [except RequestException as e], with [e.response] *)
          if EndeeClient.status_code response =? 409
          then (w', Returned (AlreadyExists name))
          else (w', Raised (PlainException
                              (py "Failed to create index: "
                                 ++ http_error_message response)))
        else
          (* [try: result = response.json()  except: ...] *)
          match EndeeClient.json response with
          | Ok body => (w', Returned (CreateBody body))
          | Raise _ => (w', Returned (Created name))
          end
    | (w', Raise e) =>
        if is_RequestException e
        then (w', Raised (PlainException
                            (py "Failed to create index: "
                               ++ str_of_exception e)))
        else (w', Raised (Passed e))
    end.

Definition insert_vectors (self : EndeeClient.t) (collection_name : str)
    (vectors : list Vector.t) : io W insert_result :=
  fun w =>
    let url :=
      EndeeClient.base_url self ++ py "/api/v1/index/" ++ collection_name
        ++ py "/vector/insert" in
    let formatted_vectors := map format_vector vectors in
    match post_insert url formatted_vectors 30 w with
    | (w', Ok response) =>
        if is_http_error response then
          (w', Raised (PlainException
                         (py "Failed to insert vectors: "
                            ++ http_error_message response)))
        else if EndeeClient.status_code response =? 200 then
          if falsy (strip (EndeeClient.text response))
          then (w', Returned InsertTrue)
          else
            match EndeeClient.json response with
            | Ok body => (w', Returned (InsertBody body))
            | Raise _ => (w', Returned InsertTrue)
            end
        else (w', Returned InsertTrue)
    | (w', Raise e) =>
        if is_RequestException e
        then (w', Raised (PlainException
                            (py "Failed to insert vectors: "
                               ++ str_of_exception e)))
        else (w', Raised (Passed e))
    end.

Definition health_check (self : EndeeClient.t) : io W bool :=
  fun w =>
    let url := EndeeClient.base_url self ++ py "/health" in
    match get url 5 w with
    | (w', Ok response) =>
        (w', Returned (EndeeClient.status_code response =? 200))
    | (w', Raise e) =>
        if is_RequestException e then (w', Returned false)
        else (w', Raised (Passed e))
    end.
End Transport.
End EndeeClientIO.

(* ================================================================== *)
(** * [embeddings/embedding_model.py] *)
(* ================================================================== *)

Module EmbeddingModel.
Local Open Scope Z_scope.

Section Library.
(** The world, and the loaded model of the library. *)
Context {W Model : Type}.
(** [SentenceTransformer(model_name)], and
    [model.encode(..., convert_to_numpy=True).tolist()] for one text and
    for a list of texts with [batch_size] and [show_progress_bar]. *)
Variable SentenceTransformer : str -> W -> W * result Model.
Variable model_encode : Model -> str -> W -> W * result (list float).
Variable model_encode_batch :
  Model -> list str -> Z -> bool -> W -> W * result (list (list float)).

Record t : Type := mk {
  model_name : str;
  _model : option Model
}.

Definition __init__ (model_name : str) : t := mk model_name None.

(** [self._load_model()], followed by the read of [self._model]: the
    object after the call, the world after it, and the model, or what the
    constructor raised. *)
Definition _load_model (self : t) (w : W) : t * W * result Model :=
  match _model self with
  | Some model => (self, w, Ok model)
  | None =>
      match SentenceTransformer (model_name self) w with
      | (w', Ok model) => (mk (model_name self) (Some model), w', Ok model)
      | (w', Raise e) => (self, w', Raise e)
      end
  end.

Definition encode (self : t) (text : str) (w : W)
    : t * W * result (list float) :=
  match _load_model self w with
  | (self', w', Ok model) =>
      let (w'', embedding) := model_encode model text w' in
      (self', w'', embedding)
  | (self', w', Raise e) => (self', w', Raise e)
  end.

Definition encode_batch (self : t) (texts : list str) (batch_size : Z)
    (w : W) : t * W * result (list (list float)) :=
  match _load_model self w with
  | (self', w', Ok model) =>
      if falsy texts then (self', w', Ok [])
      else
        let (w'', embeddings) :=
          model_encode_batch model texts batch_size
            (10 <? Z.of_nat (length texts)) w' in
        (self', w'', embeddings)
  | (self', w', Raise e) => (self', w', Raise e)
  end.
End Library.
End EmbeddingModel.

(* ================================================================== *)
(** * [main.py]: [ingest_documents] *)
(* ================================================================== *)

Module Main.
Local Open Scope Z_scope.

(** The constants of [config.py]. *)
Record Config : Type := mkConfig {
  ENDEE_URL : str;
  COLLECTION_NAME : str;
  EMBEDDING_MODEL : str;
  EMBEDDING_DIMENSION : Z;
  CHUNK_SIZE : Z;
  CHUNK_OVERLAP : Z;
  TOP_K : Z
}.

(** The way [ingest_documents] ends, by its last message to the logger. *)
Inductive report : Type :=
| NotAccessible
| CollectionFailed (message : str)
| NoDocuments
| IngestionComplete (total_inserted : Z).

(** The f-string of the [id] of a vector. *)
Definition vector_id (chunk : ChunkInfo.t) : str :=
  ChunkInfo.filename chunk ++ py "_chunk_"
    ++ str_of_int (ChunkInfo.chunk_id chunk).

Definition vector_obj (chunk : ChunkInfo.t) (embedding : list float)
    (timestamp : str) : Vector.t :=
  Vector.mk (vector_id chunk) embedding
    (VectorMetadata.mk (ChunkInfo.filename chunk) (ChunkInfo.chunk_id chunk)
       (ChunkInfo.chunk_text chunk) timestamp (ChunkInfo.total_chunks chunk)).

(** The slices [vectors[i:i + batch_size]] for [i] in
    [range(0, len(vectors), batch_size)]. *)
Definition batches (batch_size : Z) (vectors : list Vector.t)
    : list (list Vector.t) :=
  map (fun i => py_slice vectors i (i + batch_size))
      (py_range 0 (Z.of_nat (length vectors)) batch_size).

Section Ingest.
Context {W Model : Type}.
Variable config : Config.
Variable get : str -> Z -> W -> W * result EndeeClient.Response.
Variable post_create :
  str -> EndeeClientIO.CreatePayload -> Z -> W
  -> W * result EndeeClient.Response.
Variable post_insert :
  str -> list EndeeClientIO.FormattedVector -> Z -> W
  -> W * result EndeeClient.Response.
Variable http_error_message : EndeeClient.Response -> str.
Variable SentenceTransformer : str -> W -> W * result Model.
Variable model_encode_batch :
  Model -> list str -> Z -> bool -> W -> W * result (list (list float)).
(** [DocumentLoader().load_directory(directory)]. *)
Variable load_directory : str -> io W (list (str * str)).
(** [datetime.now().isoformat()]. *)
Variable now_isoformat : W -> W * str.

(** The [for] loop that builds [vectors] from
    [zip(chunks, embeddings)]. *)
Fixpoint prepare_vectors (pairs : list (ChunkInfo.t * list float))
    (vectors : list Vector.t) (w : W) : W * list Vector.t :=
  match pairs with
  | [] => (w, vectors)
  | (chunk, embedding) :: rest =>
      let (w', timestamp) := now_isoformat w in
      prepare_vectors rest (vectors ++ [vector_obj chunk embedding timestamp])
        w'
  end.

(** The [for] loop over the batches: a batch whose insertion raises an
    [Exception] is logged and left out of the count. *)
Fixpoint insert_batches (client : EndeeClient.t)
    (todo : list (list Vector.t)) (total_inserted : Z) : io W Z :=
  fun w =>
    match todo with
    | [] => (w, Returned total_inserted)
    | batch :: rest =>
        match EndeeClientIO.insert_vectors post_insert http_error_message
                client (COLLECTION_NAME config) batch w with
        | (w', Returned _) =>
            insert_batches client rest
              (total_inserted + Z.of_nat (length batch)) w'
        | (w', Raised r) =>
            if caught r then insert_batches client rest total_inserted w'
            else (w', Raised r)
        end
    end.

(** [ingest_documents(directory)]; [None] when the chunker does not end
    within [fuel] iterations. *)
Definition ingest_documents (fuel : nat) (directory : str) (w : W)
    : option (W * outcome report) :=
  let endee_client := EndeeClientIO.__init__ (ENDEE_URL config) in
  let embedding_model :=
    EmbeddingModel.__init__ (Model := Model) (EMBEDDING_MODEL config) in
  match TextChunker.__init__ (CHUNK_SIZE config) (CHUNK_OVERLAP config) with
  | Raise e => Some (w, Raised (Passed e))
  | Ok text_chunker =>
  match EndeeClientIO.health_check get endee_client w with
  | (w1, Raised r) => Some (w1, Raised r)
  | (w1, Returned false) => Some (w1, Returned NotAccessible)
  | (w1, Returned true) =>
  match EndeeClientIO.create_collection post_create http_error_message
          endee_client (COLLECTION_NAME config)
          (EMBEDDING_DIMENSION config) w1 with
  | (w2, Raised r) =>
      if caught r
      then Some (w2, Returned (CollectionFailed (str_of_raised r)))
      else Some (w2, Raised r)
  | (w2, Returned _) =>
  match load_directory directory w2 with
  | (w3, Raised r) => Some (w3, Raised r)
  | (w3, Returned documents) =>
  if falsy documents then Some (w3, Returned NoDocuments)
  else
  match TextChunker.chunk_documents fuel text_chunker documents with
  | None => None
  | Some chunks =>
  let chunk_texts := map ChunkInfo.chunk_text chunks in
  match EmbeddingModel.encode_batch SentenceTransformer model_encode_batch
          embedding_model chunk_texts 32 w3 with
  | (_, w4, Raise e) => Some (w4, Raised (Passed e))
  | (_, w4, Ok embeddings) =>
  let (w5, vectors) := prepare_vectors (combine chunks embeddings) [] w4 in
  match insert_batches endee_client (batches 100 vectors) 0 w5 with
  | (w6, Raised r) => Some (w6, Raised r)
  | (w6, Returned total_inserted) =>
      Some (w6, Returned (IngestionComplete total_inserted))
  end end end end end end end.
End Ingest.
End Main.

Module QuerySpec.
(** The context [query] assembles from the search results and hands to
    [generate_response]. *)
Definition full_context (results : list SearchResult.t) : str :=
  join (QueryEngine.newline ++ QueryEngine.newline)
    (map (fun '(idx, r) => QueryEngine.context_part idx r)
         (enumerate 1 results)).

(** A decimal digit. *)
Definition is_digit (c : N) : bool := ((48 <=? c) && (c <=? 57))%N.

(** The text of the chunk a search result carries. *)
Definition result_text (r : SearchResult.t) : str :=
  get (Metadata.chunk_text (get (SearchResult.metadata r) Metadata.empty)) [].
End QuerySpec.

Module Fixtures.
Local Open Scope Z_scope.

(** Two search results: one complete, one without [metadata] and
    [score]. *)
Definition long_text : str := repeat 120%N 250.
Definition hit1 : SearchResult.t :=
  SearchResult.mk
    (Some (Metadata.mk (Some long_text) (Some (py "doc1.txt")) (Some 2)))
    (Some 0.875%float).
Definition hit_bare : SearchResult.t := SearchResult.mk None None.

Definition search_two (_ : str) (_ : list float) (_ : Z) (_ : bool)
    : result (list SearchResult.t) :=
  Ok [hit1; hit_bare].

Definition generate_none (_ _ : str) (_ : list SourceInfo.t)
    : result (option str) :=
  Ok None.

Definition format_fixed (_ : float) : str := py "0.88".

Definition interrupt : exception :=
  mkException KeyboardInterrupt [].

(** Three vectors of one document. *)
Definition chunk_of (k : Z) : ChunkInfo.t :=
  ChunkInfo.mk (py "doc1.txt") k (py "some words") 3.
Definition three_vectors : list Vector.t :=
  map (fun k => Main.vector_obj (chunk_of k) [0.5%float] (py "2024-01-01"))
      [1; 2; 3].

(** A configuration, and collaborators that count their calls in the
    world: a store that is down or up, that accepts or refuses, a model
    that loads or not, a directory of two documents, a clock. *)
Definition config : Main.Config :=
  Main.mkConfig (py "http://localhost:8080/") (py "knowledge_base")
    (py "MiniLM") 384 3 1 3.
Definition answer (status : Z) : EndeeClient.Response :=
  EndeeClient.mkResponse status [] (Ok EndeeClient.JsonOther).
Definition get_down (_ : str) (_ : Z) (w : nat)
    : nat * result EndeeClient.Response :=
  (S w, Raise Samples.connection_refused).
Definition get_up (_ : str) (_ : Z) (w : nat)
    : nat * result EndeeClient.Response :=
  (S w, Ok (answer 200)).
Definition post_create_ok (_ : str) (_ : EndeeClientIO.CreatePayload)
    (_ : Z) (w : nat) : nat * result EndeeClient.Response :=
  (S w, Ok (answer 200)).
Definition post_insert_with (status : Z) (_ : str)
    (_ : list EndeeClientIO.FormattedVector) (_ : Z) (w : nat)
    : nat * result EndeeClient.Response :=
  (S w, Ok (answer status)).
Definition error_message (_ : EndeeClient.Response) : str :=
  py "500 Server Error".
Definition loader_failing (_ : str) (w : nat) : nat * result nat :=
  (S w, Raise (mkException RuntimeError (py "model could not be loaded"))).
Definition batch_encoder (_ : nat) (texts : list str) (_ : Z) (_ : bool)
    (w : nat) : nat * result (list (list float)) :=
  (S w, Ok (map (fun _ => [0.5%float]) texts)).
Definition load_two (_ : str) (w : nat)
    : nat * outcome (list (str * str)) :=
  (S w, Returned [(py "a", py "x y z u v"); (py "b", py "q")]).
Definition clock (w : nat) : nat * str := (S w, py "2024-01-01T00:00:00").

(** A library whose constructor and encoder count their calls in the
    world, and an object before and after the model is loaded. *)
Definition loader (_ : str) (w : nat) : nat * result nat := (S w, Ok 7%nat).
Definition encoder (_ : nat) (_ : str) (w : nat)
    : nat * result (list float) :=
  (S w, Ok [0.5%float]).
Definition fresh_model : @EmbeddingModel.t nat :=
  EmbeddingModel.__init__ (py "MiniLM").
Definition loaded_model : @EmbeddingModel.t nat :=
  EmbeddingModel.mk (py "MiniLM") (Some 7%nat).
End Fixtures.

(* ================================================================== *)
(** * Vocabulary of the specification *)
(* ================================================================== *)

(** A word as [split] produces them: not empty, no white space in it. *)
Definition nonspace (c : N) : bool := negb (isspace c).

Definition word_ok (w : str) : Prop :=
  w <> [] /\ forallb nonspace w = true.

(** A text that is empty or white space only. *)
Definition blank (text : str) : Prop := forallb isspace text = true.

(** [ceil (a / b)] for a positive [b]. *)
Definition ceil_div (a b : Z) : Z := (- (- a / b))%Z.

Module ChunkerSpec.
Local Open Scope Z_scope.
Import TextChunker.

(** The number of words of a text and the stride of the window. *)
Definition total_words (text : str) : Z := Z.of_nat (length (split text)).
Definition stride (self : t) : Z := chunk_size self - overlap self.

(** The chunk of the window that starts at word [start]: [chunk_size]
    words, clipped to the end of the text, joined by one blank. *)
Definition chunk_at (self : t) (words : list str) (start : Z) : str :=
  join (py " ")
    (py_slice words start
       (Z.min (start + chunk_size self) (Z.of_nat (length words)))).

(** [n] windows, the first at [start], each one [stride] further. *)
Fixpoint windows_from (self : t) (words : list str) (n : nat) (start : Z)
    : list str :=
  match n with
  | O => []
  | S n' =>
      chunk_at self words start
        :: windows_from self words n' (start + stride self)
  end.

(** The precondition of the chunker in the specification. *)
Definition valid (self : t) : Prop :=
  chunk_size self > overlap self /\ overlap self >= 0 /\ chunk_size self >= 1.

(** The chunks of one document inside the output of [chunk_documents]:
    numbered [1 .. N] in the order [chunk_text] gave them, each with
    the name of the document and the count [N]. *)
Definition numbered (filename : str) (chunks : list str)
    (block : list ChunkInfo.t) : Prop :=
  map ChunkInfo.chunk_id block
    = map Z.of_nat (seq 1 (length chunks))
  /\ map ChunkInfo.chunk_text block = chunks
  /\ Forall (fun c => ChunkInfo.total_chunks c = Z.of_nat (length chunks)
                      /\ ChunkInfo.filename c = filename) block.
End ChunkerSpec.

(* ================================================================== *)
(** * Lemmas on strings and slices *)
(* ================================================================== *)

Section StringLemmas.

Lemma isspace_blank : isspace 32%N = true.
Proof. reflexivity. Qed.

Lemma split_in_word_ok (s : str) :
  Forall word_ok (split s)
  /\ forallb nonspace (fst (in_word s)) = true
  /\ Forall word_ok (snd (in_word s)).
Proof.
  induction s as [|c s [IHs [IHw IHws]]]; simpl.
  - repeat split; constructor.
  - destruct (isspace c) eqn:Hc.
    + simpl. repeat split; auto.
    + destruct (in_word s) as [w ws]; simpl in *.
      assert (Hw : word_ok (c :: w)).
      { split; [discriminate|]. simpl. unfold nonspace at 1.
        rewrite Hc. exact IHw. }
      repeat split; auto.
      unfold nonspace at 1. rewrite Hc. exact IHw.
Qed.

Lemma split_words_ok (s : str) : Forall word_ok (split s).
Proof. apply split_in_word_ok. Qed.

Lemma in_word_app (w s : str) :
  forallb nonspace w = true ->
  in_word (w ++ s) = (w ++ fst (in_word s), snd (in_word s)).
Proof.
  induction w as [|c w IH]; simpl; intros H.
  - destruct (in_word s); reflexivity.
  - apply andb_true_iff in H. destruct H as [Hc Hw].
    unfold nonspace in Hc. apply negb_true_iff in Hc. rewrite Hc.
    rewrite (IH Hw). reflexivity.
Qed.

Lemma split_word_sep (w s : str) :
  word_ok w -> split (w ++ 32%N :: s) = w :: split s.
Proof.
  intros [Hne Hw]. destruct w as [|c w]; [congruence|].
  simpl in *. apply andb_true_iff in Hw. destruct Hw as [Hc Hw].
  unfold nonspace in Hc. apply negb_true_iff in Hc. rewrite Hc.
  rewrite (in_word_app w (32%N :: s) Hw). simpl. rewrite app_nil_r. reflexivity.
Qed.

Lemma split_word (w : str) : word_ok w -> split w = [w].
Proof.
  intros [Hne Hw]. destruct w as [|c w]; [congruence|].
  simpl in *. apply andb_true_iff in Hw. destruct Hw as [Hc Hw].
  unfold nonspace in Hc. apply negb_true_iff in Hc. rewrite Hc.
  rewrite <- (app_nil_r w) at 1. rewrite (in_word_app w [] Hw).
  simpl. rewrite app_nil_r. reflexivity.
Qed.

(** Joining words by one blank and splitting again gives the words. *)
Lemma split_join (ws : list str) :
  Forall word_ok ws -> split (join (py " ") ws) = ws.
Proof.
  change (py " ") with [32%N].
  induction 1 as [|w ws Hw Hws IH]; [reflexivity|].
  destruct ws as [|w' ws].
  - simpl. apply split_word; assumption.
  - change (join [32%N] (w :: w' :: ws))
      with (w ++ 32%N :: join [32%N] (w' :: ws)).
    rewrite split_word_sep by assumption. rewrite IH. reflexivity.
Qed.

Lemma split_nil_iff (s : str) : split s = [] <-> blank s.
Proof.
  unfold blank. induction s as [|c s IH]; simpl.
  - tauto.
  - destruct (isspace c); simpl; [exact IH|].
    destruct (in_word s). split; discriminate.
Qed.

Lemma lstrip_nil_iff (s : str) : lstrip s = [] <-> blank s.
Proof.
  unfold blank. induction s as [|c s IH]; simpl.
  - tauto.
  - destruct (isspace c); simpl; [exact IH|]. split; discriminate.
Qed.

Lemma lstrip_blank_inv (s : str) : blank (lstrip s) -> blank s.
Proof.
  unfold blank. induction s as [|c s IH]; simpl; auto.
  destruct (isspace c) eqn:Hc; simpl; auto.
  rewrite Hc. simpl. discriminate.
Qed.

Lemma blank_rev (s : str) : blank (rev s) <-> blank s.
Proof.
  unfold blank. rewrite !forallb_forall.
  split; intros H x Hx; apply H.
  - apply in_rev in Hx. exact Hx.
  - apply in_rev. exact Hx.
Qed.

Lemma strip_nil_iff (s : str) : strip s = [] <-> blank s.
Proof.
  unfold strip, rstrip. split.
  - intros H. apply (f_equal (@rev N)) in H. rewrite rev_involutive in H.
    simpl in H. apply lstrip_nil_iff in H.
    apply lstrip_blank_inv, (proj1 (blank_rev _)), H.
  - intros H. apply lstrip_nil_iff in H. rewrite H. reflexivity.
Qed.

Lemma falsy_true_iff {A : Type} (l : list A) : falsy l = true <-> l = [].
Proof. destruct l; simpl; split; congruence. Qed.

Lemma falsy_false_iff {A : Type} (l : list A) : falsy l = false <-> l <> [].
Proof. destruct l; simpl; split; congruence. Qed.

(** The first test of [chunk_text] is the test for a blank text. *)
Lemma blank_test (text : str) :
  falsy text || falsy (strip text) = true <-> blank text.
Proof.
  rewrite orb_true_iff, !falsy_true_iff, strip_nil_iff.
  split; [intros [->|H]; [reflexivity|exact H] | auto].
Qed.

Lemma blank_test_false (text : str) :
  falsy text || falsy (strip text) = false <-> split text <> [].
Proof.
  rewrite split_nil_iff, <- blank_test.
  destruct (falsy text || falsy (strip text)); split; congruence.
Qed.

End StringLemmas.

Section SliceLemmas.
Context {A : Type}.
Local Open Scope Z_scope.

(** Inside the list a slice is [firstn] of [skipn]. *)
Lemma py_slice_inside (l : list A) (a b : Z) :
  0 <= a -> a <= b -> b <= Z.of_nat (length l) ->
  py_slice l a b = firstn (Z.to_nat (b - a)) (skipn (Z.to_nat a) l).
Proof.
  intros Ha Hab Hb. unfold py_slice, adjust_index.
  destruct (Z.ltb_spec a 0); [lia|].
  destruct (Z.ltb_spec b 0); [lia|].
  destruct (Z.ltb_spec (Z.of_nat (length l)) a); [lia|].
  destruct (Z.ltb_spec (Z.of_nat (length l)) b); [lia|].
  reflexivity.
Qed.

Lemma py_slice_length (l : list A) (a b : Z) :
  0 <= a -> a <= b -> b <= Z.of_nat (length l) ->
  Z.of_nat (length (py_slice l a b)) = b - a.
Proof.
  intros Ha Hab Hb. rewrite py_slice_inside by assumption.
  rewrite length_firstn, length_skipn. lia.
Qed.

Lemma firstn_Forall (P : A -> Prop) (n : nat) (l : list A) :
  Forall P l -> Forall P (firstn n l).
Proof.
  intros H. revert n. induction H; intros [|n]; simpl; auto.
Qed.

Lemma skipn_Forall (P : A -> Prop) (n : nat) (l : list A) :
  Forall P l -> Forall P (skipn n l).
Proof.
  intros H. revert n. induction H; intros [|n]; simpl; auto.
Qed.

Lemma py_slice_Forall (P : A -> Prop) (l : list A) (a b : Z) :
  Forall P l -> Forall P (py_slice l a b).
Proof.
  intros H. unfold py_slice. apply firstn_Forall, skipn_Forall, H.
Qed.

Lemma enumerate_fst (l : list A) (start : Z) :
  map fst (enumerate start l)
    = map (fun i => start + Z.of_nat i) (seq 0 (length l)).
Proof.
  revert start. induction l as [|x l IH]; intros start; simpl.
  - reflexivity.
  - f_equal; [lia|]. rewrite IH, <- seq_shift, map_map.
    apply map_ext. intros i. lia.
Qed.

Lemma enumerate_snd (l : list A) (start : Z) :
  map snd (enumerate start l) = l.
Proof.
  revert start. induction l as [|x l IH]; intros start; simpl;
    [|rewrite IH]; reflexivity.
Qed.
End SliceLemmas.

(* ================================================================== *)
(** * The chunking loop *)
(* ================================================================== *)

Section CeilDiv.
Local Open Scope Z_scope.

Lemma ceil_div_pos (a b : Z) : 0 < b -> 0 < a -> 0 < ceil_div a b.
Proof.
  intros Hb Ha. unfold ceil_div.
  assert (- a / b < 0) by (apply Z.div_lt_upper_bound; lia). lia.
Qed.

Lemma ceil_div_one (a b : Z) : 0 < a -> a <= b -> ceil_div a b = 1.
Proof.
  intros Ha Hab. unfold ceil_div.
  assert (- a / b = - 1); [|lia].
  symmetry. apply (Z.div_unique (- a) b (- 1) (b - a)); lia.
Qed.

Lemma ceil_div_step (a b : Z) :
  0 < b -> ceil_div (a - b) b = ceil_div a b - 1.
Proof.
  intros Hb. unfold ceil_div.
  replace (- (a - b)) with (- a + 1 * b) by lia.
  rewrite Z.div_add by lia. lia.
Qed.

Lemma ceil_div_le (a b : Z) : 0 < b -> 0 <= a -> ceil_div a b <= a.
Proof.
  intros Hb Ha. unfold ceil_div.
  assert (- a <= - a / b); [|lia].
  apply Z.div_le_lower_bound; nia.
Qed.
End CeilDiv.

Section ChunkLoop.
Import TextChunker ChunkerSpec.
Local Open Scope Z_scope.

Variable self : t.
Variable words : list str.

(** Decide the test of the [while] of [chunk_loop]. *)
Ltac while_test start :=
  cbn [chunk_loop];
  destruct (Z.ltb_spec start (Z.of_nat (length words)));
  [try reflexivity | try reflexivity; try lia].

(** The loop is over once the window start has reached the end. *)
Lemma chunk_loop_exit (fuel : nat) (start : Z) (chunks : list str) :
  Z.of_nat (length words) <= start ->
  chunk_loop fuel self words start chunks = Some chunks.
Proof. intros H. destruct fuel; while_test start; lia. Qed.

(** One run of the body: the chunk at [start] is appended and the window
    start moves on by the stride. *)
Lemma chunk_loop_step (fuel : nat) (start : Z) (chunks : list str) :
  start < Z.of_nat (length words) ->
  chunk_loop (S fuel) self words start chunks
  = if start + stride self >=? Z.of_nat (length words)
    then Some (chunks ++ [chunk_at self words start])
    else chunk_loop fuel self words (start + stride self)
           (chunks ++ [chunk_at self words start]).
Proof. intros H. while_test start. Qed.

Lemma chunk_loop_no_fuel (start : Z) (chunks : list str) :
  start < Z.of_nat (length words) ->
  chunk_loop 0 self words start chunks = None.
Proof. intros H. while_test start. Qed.

(** With a positive stride the loop runs [ceil ((W - start) / stride)]
    times, [W] the number of words, and appends that many windows. *)
Lemma chunk_loop_windows (n fuel : nat) (start : Z) (chunks : list str) :
  0 < stride self -> start < Z.of_nat (length words) ->
  Z.of_nat n = ceil_div (Z.of_nat (length words) - start) (stride self) ->
  (n <= fuel)%nat ->
  chunk_loop fuel self words start chunks
  = Some (chunks ++ windows_from self words n start).
Proof.
  intros Hd. revert fuel start chunks.
  set (W := Z.of_nat (length words)).
  induction n as [|n IH]; intros fuel start chunks Hs Hn Hf.
  - pose proof (ceil_div_pos (W - start) (stride self) Hd). lia.
  - destruct fuel as [|fuel]; [lia|].
    rewrite chunk_loop_step by assumption. cbn [windows_from]. fold W.
    destruct (Z.geb_spec (start + stride self) W) as [Hge|Hlt].
    + rewrite (ceil_div_one (W - start) (stride self)) in Hn by lia.
      assert (n = O) by lia. subst n. reflexivity.
    + rewrite (IH fuel (start + stride self)); try lia.
      * rewrite <- app_assoc. reflexivity.
      * replace (W - (start + stride self))
          with (W - start - stride self) by lia.
        rewrite ceil_div_step by assumption. lia.
Qed.

(** With a stride that is not positive the window start never reaches
    the end: the loop uses up any fuel. *)
Lemma chunk_loop_diverges (fuel : nat) (start : Z) (chunks : list str) :
  stride self <= 0 -> start < Z.of_nat (length words) ->
  chunk_loop fuel self words start chunks = None.
Proof.
  intros Hd. revert start chunks.
  induction fuel as [|fuel IH]; intros start chunks Hs.
  - apply chunk_loop_no_fuel, Hs.
  - rewrite chunk_loop_step by assumption.
    destruct (Z.geb_spec (start + stride self) (Z.of_nat (length words)));
      [lia|].
    apply IH. lia.
Qed.

Lemma windows_from_map (n : nat) (start : Z) :
  windows_from self words n start
  = map (fun i => chunk_at self words (start + Z.of_nat i * stride self))
        (seq 0 n).
Proof.
  revert start. induction n as [|n IH]; intros start; [reflexivity|].
  cbn [windows_from seq map]. f_equal.
  - f_equal. lia.
  - rewrite IH, <- seq_shift, map_map. apply map_ext.
    intros i. f_equal. lia.
Qed.

Lemma windows_from_length (n : nat) (start : Z) :
  length (windows_from self words n start) = n.
Proof. rewrite windows_from_map, length_map, length_seq. reflexivity. Qed.
End ChunkLoop.

Section ChunkText.
Import TextChunker ChunkerSpec.
Local Open Scope Z_scope.

Lemma chunk_text_blank (fuel : nat) (self : t) (text : str) :
  blank text -> chunk_text fuel self text = Some [].
Proof.
  intros H. unfold chunk_text. apply blank_test in H. rewrite H.
  reflexivity.
Qed.

Lemma chunk_text_small (fuel : nat) (self : t) (text : str) :
  split text <> [] -> total_words text <= chunk_size self ->
  chunk_text fuel self text = Some [text].
Proof.
  intros Hne Hle. unfold chunk_text.
  apply blank_test_false in Hne. rewrite Hne.
  unfold total_words in Hle.
  destruct (Z.leb_spec (Z.of_nat (length (split text))) (chunk_size self));
    [reflexivity | lia].
Qed.

Lemma chunk_text_large (fuel : nat) (self : t) (text : str) :
  split text <> [] -> chunk_size self < total_words text ->
  chunk_text fuel self text = chunk_loop fuel self (split text) 0 [].
Proof.
  intros Hne Hlt. unfold chunk_text.
  apply blank_test_false in Hne. rewrite Hne.
  unfold total_words in Hlt.
  destruct (Z.leb_spec (Z.of_nat (length (split text))) (chunk_size self));
    [lia | reflexivity].
Qed.

Lemma total_words_pos (text : str) :
  split text <> [] -> 0 < total_words text.
Proof.
  unfold total_words. destruct (split text); [congruence|]. simpl. lia.
Qed.

Lemma total_words_nonempty (text : str) :
  1 <= total_words text -> split text <> [].
Proof.
  unfold total_words. destruct (split text); [simpl; lia | discriminate].
Qed.

(** The chunks of a long text when the stride is positive. *)
Lemma chunk_text_windows (fuel : nat) (self : t) (text : str) :
  split text <> [] -> chunk_size self < total_words text ->
  0 < stride self ->
  (Z.to_nat (ceil_div (total_words text) (stride self)) <= fuel)%nat ->
  chunk_text fuel self text
  = Some (windows_from self (split text)
            (Z.to_nat (ceil_div (total_words text) (stride self))) 0).
Proof.
  intros Hne Hlt Hd Hf. rewrite chunk_text_large by assumption.
  pose proof (total_words_pos text Hne) as Hpos.
  pose proof (ceil_div_pos _ _ Hd Hpos) as Hc.
  change (windows_from self (split text)
            (Z.to_nat (ceil_div (total_words text) (stride self))) 0)
    with ([] ++ windows_from self (split text)
            (Z.to_nat (ceil_div (total_words text) (stride self))) 0).
  apply chunk_loop_windows; try assumption.
  rewrite Z.sub_0_r. fold (total_words text). lia.
Qed.

(** A text is chunked within as many iterations as it has words. *)
Lemma chunk_text_total (fuel : nat) (self : t) (text : str) :
  0 < stride self -> (length (split text) <= fuel)%nat ->
  exists chunks, chunk_text fuel self text = Some chunks.
Proof.
  intros Hd Hf. destruct (split text) as [|w ws] eqn:Hs.
  - exists []. apply chunk_text_blank, split_nil_iff, Hs.
  - assert (Hne : split text <> []) by (rewrite Hs; discriminate).
    destruct (Z_le_gt_dec (total_words text) (chunk_size self)).
    + exists [text]. apply chunk_text_small; assumption.
    + eexists. apply chunk_text_windows; try assumption; [lia|].
      pose proof (ceil_div_le (total_words text) (stride self) Hd).
      pose proof (total_words_pos text Hne).
      unfold total_words in *. rewrite Hs in *. lia.
Qed.
End ChunkText.

Section Windows.
Import TextChunker ChunkerSpec.
Local Open Scope Z_scope.

Lemma ceil_div_bounds (a b : Z) :
  0 < b -> (ceil_div a b - 1) * b < a /\ a <= ceil_div a b * b.
Proof.
  intros Hb. unfold ceil_div.
  pose proof (Z.div_mod (- a) b ltac:(lia)) as Hdm.
  pose proof (Z.mod_pos_bound (- a) b Hb) as Hm. nia.
Qed.

(** The words of the chunk of a window that starts inside the text: at
    most [chunk_size] words from [start] on. *)
Lemma split_chunk_at (self : t) (words : list str) (start : Z) :
  Forall word_ok words -> 0 <= chunk_size self ->
  0 <= start <= Z.of_nat (length words) ->
  split (chunk_at self words start)
  = firstn (Z.to_nat (chunk_size self)) (skipn (Z.to_nat start) words).
Proof.
  intros Hw Hcs Hs. unfold chunk_at.
  rewrite split_join by (apply py_slice_Forall, Hw).
  rewrite py_slice_inside by lia.
  destruct (Z.min_spec (start + chunk_size self) (Z.of_nat (length words)))
    as [[Hlt ->]|[Hge ->]].
  - f_equal. lia.
  - rewrite !firstn_all2; [reflexivity | |]; rewrite length_skipn; lia.
Qed.
End Windows.

(* ================================================================== *)
(** * The chunker: claims *)
(* ================================================================== *)

Import TextChunker ChunkerSpec.
Local Open Scope Z_scope.

(** The defaults on a text of 600 words: two chunks, of 512 and 138
    words, the second starting 50 words before the end of the first. *)
Example chunk_text_600_words :
  option_map (map (fun c => length (split c)))
    (chunk_text 2 (TextChunker.mk 512 50) (Samples.sample_text 600))
  = Some [512; 138]%nat.
Proof. vm_compute. reflexivity. Qed.

(** Three words, a window of two, no overlap; tabs and line ends count as
    white space. *)
Example chunk_text_three_words :
  chunk_text 2 (TextChunker.mk 2 0) [97; 9; 98; 10; 10; 99]%N
  = Some [py "a b"; py "c"].
Proof. reflexivity. Qed.

(** C8: for every text that is empty or made of white space only,
    [chunk_text] returns the empty list, whatever the chunker's settings
    and without entering the loop; nothing is raised. *)
Theorem chunk_text_blank_is_empty :
  forall (self : TextChunker.t) (text : str) (fuel : nat),
    blank text -> chunk_text fuel self text = Some [].
Proof. intros self text fuel H. apply chunk_text_blank, H. Qed.

Lemma chunk_text_blank_is_empty_witness :
  blank [32%N; 9%N; 10%N]
  /\ chunk_text 0 (TextChunker.mk 512 50) [32%N; 9%N; 10%N] = Some [].
Proof.
  split; [reflexivity|].
  apply (chunk_text_blank_is_empty (TextChunker.mk 512 50)
           [32%N; 9%N; 10%N] 0).
  reflexivity.
Defined.

(** C6, as stated, fails on the empty text: it has [0 <= chunk_size]
    words and [chunk_text] returns no chunk at all. *)
Lemma chunk_text_single_chunk_counterexample :
  total_words [] <= chunk_size (TextChunker.mk 512 50)
  /\ chunk_text 0 (TextChunker.mk 512 50) [] = Some []
  /\ ~ (exists chunk, chunk_text 0 (TextChunker.mk 512 50) [] = Some [chunk]).
Proof.
  split; [vm_compute; discriminate|]. split; [reflexivity|].
  intros [chunk H]. discriminate H.
Qed.

(** C6 (amended): for every text with [1 <= W <= chunk_size] words,
    [chunk_text] returns exactly one chunk, the text itself, character for
    character (so also up to white space), and [chunk_documents] returns
    that chunk alone, numbered 1 of 1. *)
Theorem chunk_text_single_chunk :
  forall (self : TextChunker.t) (filename text : str) (fuel : nat),
    1 <= total_words text -> total_words text <= chunk_size self ->
    chunk_text fuel self text = Some [text]
    /\ chunk_documents fuel self [(filename, text)]
       = Some [ChunkInfo.mk filename 1 text 1].
Proof.
  intros self filename text fuel H1 Hle.
  pose proof (total_words_nonempty text H1) as Hne.
  pose proof (chunk_text_small fuel self text Hne Hle) as Hc.
  split; [exact Hc|].
  unfold chunk_documents. cbn [chunk_documents_loop]. rewrite Hc.
  reflexivity.
Qed.

Lemma chunk_text_single_chunk_witness :
  chunk_text 0 (TextChunker.mk 512 50) (py " hello  world ")
    = Some [py " hello  world "]
  /\ chunk_documents 0 (TextChunker.mk 512 50)
       [(py "doc2.txt", py " hello  world ")]
     = Some [ChunkInfo.mk (py "doc2.txt") 1 (py " hello  world ") 1].
Proof.
  apply (chunk_text_single_chunk (TextChunker.mk 512 50) (py "doc2.txt")
           (py " hello  world ") 0).
  - vm_compute. discriminate.
  - vm_compute. discriminate.
Defined.

(** C10: with [chunk_size > overlap] the loop of [chunk_text] ends on every
    text, within as many iterations as the text has words, and the result
    does not depend on the fuel; every run of the body moves the window
    start on by [chunk_size - overlap]; with [chunk_size <= overlap] (so
    also when the two are equal and the stride is zero) the loop never
    ends on a text of more than [chunk_size] words. *)
Theorem chunk_text_terminates :
  forall (self : TextChunker.t) (text : str),
    (overlap self < chunk_size self ->
     exists chunks, forall fuel,
       (length (split text) <= fuel)%nat ->
       chunk_text fuel self text = Some chunks)
    /\ (forall fuel start chunks,
          start < total_words text ->
          chunk_loop (S fuel) self (split text) start chunks
          = if start + (chunk_size self - overlap self) >=? total_words text
            then Some (chunks ++ [chunk_at self (split text) start])
            else chunk_loop fuel self (split text)
                   (start + (chunk_size self - overlap self))
                   (chunks ++ [chunk_at self (split text) start]))
    /\ (chunk_size self <= overlap self ->
        1 <= total_words text -> chunk_size self < total_words text ->
        forall fuel, chunk_text fuel self text = None).
Proof.
  intros self text. split; [|split].
  - intros Hd. assert (Hs : 0 < stride self) by (unfold stride; lia).
    destruct (split text) as [|w ws] eqn:Hw.
    + exists []. intros fuel _.
      apply chunk_text_blank, split_nil_iff, Hw.
    + assert (Hne : split text <> []) by (rewrite Hw; discriminate).
      destruct (Z_le_gt_dec (total_words text) (chunk_size self)).
      * exists [text]. intros fuel _. apply chunk_text_small; assumption.
      * eexists. intros fuel Hf. apply chunk_text_windows; try assumption;
          [lia|].
        pose proof (ceil_div_le (total_words text) (stride self) Hs).
        pose proof (total_words_pos text Hne).
        unfold total_words in *. rewrite Hw in *. lia.
  - intros fuel start chunks Hs. apply chunk_loop_step. exact Hs.
  - intros Hd H1 Hlt fuel.
    pose proof (total_words_nonempty text H1) as Hne.
    rewrite chunk_text_large by assumption.
    apply chunk_loop_diverges; [unfold stride | unfold total_words in H1]; lia.
Qed.

Lemma chunk_text_terminates_witness :
  (exists chunks, forall fuel,
      (5 <= fuel)%nat ->
      chunk_text fuel (TextChunker.mk 3 1) (py "a b c d e") = Some chunks)
  /\ (forall fuel, chunk_text fuel (TextChunker.mk 2 2) (py "a b c") = None).
Proof.
  split.
  - apply (proj1 (chunk_text_terminates (TextChunker.mk 3 1) (py "a b c d e"))).
    reflexivity.
  - apply (proj2 (proj2
             (chunk_text_terminates (TextChunker.mk 2 2) (py "a b c")))).
    + vm_compute. discriminate.
    + vm_compute. discriminate.
    + reflexivity.
Defined.

(** C2, as stated, fails in its count: a text of 25 words chunked with
    [chunk_size = 10] and [overlap = 2] gives 4 chunks (windows at words
    0, 8, 16 and 24), and [ceil ((25 - 10) / (10 - 2)) + 1] is 3. *)
Lemma chunk_count_counterexample :
  total_words (Samples.sample_text 25) = 25
  /\ chunk_size (TextChunker.mk 10 2) < total_words (Samples.sample_text 25)
  /\ valid (TextChunker.mk 10 2)
  /\ exists chunks,
       chunk_text 25 (TextChunker.mk 10 2) (Samples.sample_text 25)
         = Some chunks
       /\ Z.of_nat (length chunks) = 4
       /\ Z.of_nat (length chunks)
          <> ceil_div (total_words (Samples.sample_text 25)
                       - chunk_size (TextChunker.mk 10 2))
                      (chunk_size (TextChunker.mk 10 2)
                       - overlap (TextChunker.mk 10 2)) + 1.
Proof.
  split; [vm_compute; reflexivity|]. split; [vm_compute; reflexivity|].
  split; [unfold valid; simpl; lia|].
  eexists. split; [vm_compute; reflexivity|].
  split; [reflexivity | vm_compute; discriminate].
Qed.

(** C2 (amended): for every text of [W > chunk_size] words and settings
    with [chunk_size > overlap >= 0], [chunk_text] returns the chunks of
    the windows that start at the words [0, d, 2d, ...] with
    [d = chunk_size - overlap], up to the first start that reaches [W];
    the chunk of a window holds the [chunk_size] words from its start on,
    or the words that remain when fewer do; and the number of chunks is
    [ceil (W / (chunk_size - overlap))]. *)
Theorem chunk_text_sliding_window :
  forall (self : TextChunker.t) (text : str) (fuel : nat),
    0 <= overlap self -> overlap self < chunk_size self ->
    chunk_size self < total_words text ->
    (Z.to_nat (ceil_div (total_words text) (stride self)) <= fuel)%nat ->
    exists n : nat,
      Z.of_nat n = ceil_div (total_words text) (stride self)
      /\ chunk_text fuel self text
         = Some (map (fun i => chunk_at self (split text)
                                 (Z.of_nat i * stride self))
                     (seq 0 n))
      /\ (Z.of_nat n - 1) * stride self < total_words text
      /\ total_words text <= Z.of_nat n * stride self
      /\ (forall i, (i < n)%nat ->
            split (chunk_at self (split text) (Z.of_nat i * stride self))
            = firstn (Z.to_nat (chunk_size self))
                (skipn (Z.to_nat (Z.of_nat i * stride self)) (split text))).
Proof.
  intros self text fuel Hov Hcs HW Hf.
  assert (Hd : 0 < stride self) by (unfold stride; lia).
  assert (Hne : split text <> []) by (apply total_words_nonempty; lia).
  pose proof (total_words_pos text Hne) as Hpos.
  pose proof (ceil_div_pos _ _ Hd Hpos) as Hc.
  pose proof (ceil_div_bounds (total_words text) (stride self) Hd)
    as [Hlo Hhi].
  exists (Z.to_nat (ceil_div (total_words text) (stride self))).
  rewrite Z2Nat.id by lia.
  split; [reflexivity|]. split; [|split; [exact Hlo|split; [exact Hhi|]]].
  - rewrite chunk_text_windows by assumption.
    rewrite windows_from_map. reflexivity.
  - intros i Hi. apply split_chunk_at; [apply split_words_ok | lia |].
    fold (total_words text). nia.
Qed.

Lemma chunk_text_sliding_window_witness :
  exists n : nat,
    Z.of_nat n = ceil_div (total_words (Samples.sample_text 25)) 8
    /\ chunk_text 4 (TextChunker.mk 10 2) (Samples.sample_text 25)
       = Some (map (fun i => chunk_at (TextChunker.mk 10 2)
                               (split (Samples.sample_text 25))
                               (Z.of_nat i * 8))
                   (seq 0 n))
    /\ (Z.of_nat n - 1) * 8 < total_words (Samples.sample_text 25)
    /\ total_words (Samples.sample_text 25) <= Z.of_nat n * 8
    /\ (forall i, (i < n)%nat ->
          split (chunk_at (TextChunker.mk 10 2)
                   (split (Samples.sample_text 25)) (Z.of_nat i * 8))
          = firstn 10
              (skipn (Z.to_nat (Z.of_nat i * 8))
                 (split (Samples.sample_text 25)))).
Proof.
  apply (chunk_text_sliding_window (TextChunker.mk 10 2)
           (Samples.sample_text 25) 4).
  - vm_compute. discriminate.
  - vm_compute. reflexivity.
  - vm_compute. reflexivity.
  - vm_compute. lia.
Defined.

(** C5: every text of 25 words, chunked with [chunk_size = 10] and
    [overlap = 2], gives exactly 4 chunks: the words 0-9, 8-17, 16-24 and
    24 of the text, so 10, 10, 9 and 1 words, none more than 10; the last
    2 words of the first chunk are the first 2 of the second, and the last
    2 of the second are the first 2 of the third (the fourth, the last
    one, shares its single word with the third). *)
Theorem chunk_text_25_words :
  forall (text : str) (fuel : nat),
    length (split text) = 25%nat -> (4 <= fuel)%nat ->
    exists c1 c2 c3 c4 : str,
      chunk_text fuel (TextChunker.mk 10 2) text = Some [c1; c2; c3; c4]
      /\ split c1 = py_slice (split text) 0 10
      /\ split c2 = py_slice (split text) 8 18
      /\ split c3 = py_slice (split text) 16 25
      /\ split c4 = py_slice (split text) 24 25
      /\ map (fun c => length (split c)) [c1; c2; c3; c4]
         = [10; 10; 9; 1]%nat
      /\ Forall (fun c => (length (split c) <= 10)%nat) [c1; c2; c3; c4]
      /\ skipn 8 (split c1) = firstn 2 (split c2)
      /\ skipn 8 (split c2) = firstn 2 (split c3).
Proof.
  intros text fuel HW Hf.
  assert (Hne : split text <> []).
  { destruct (split text); [discriminate HW | discriminate]. }
  assert (Ht : total_words text = 25) by (unfold total_words; lia).
  assert (Hchunks :
    chunk_text fuel (TextChunker.mk 10 2) text
    = Some (windows_from (TextChunker.mk 10 2) (split text) 4 0)).
  { replace 4%nat
      with (Z.to_nat (ceil_div (total_words text)
                        (stride (TextChunker.mk 10 2))))
      by (rewrite Ht; reflexivity).
    apply chunk_text_windows; try assumption.
    - rewrite Ht. reflexivity.
    - reflexivity.
    - rewrite Ht. exact Hf. }
  pose proof (split_words_ok text) as Hok.
  assert (Hsplit : forall start,
    split (chunk_at (TextChunker.mk 10 2) (split text) start)
    = py_slice (split text) start (Z.min (start + 10) 25)).
  { intros start. unfold chunk_at. cbn [chunk_size]. rewrite HW.
    apply split_join, py_slice_Forall, Hok. }
  do 4 eexists. split; [exact Hchunks|].
  cbn [windows_from stride chunk_size overlap map].
  rewrite !Forall_cons_iff, !Hsplit.
  clear Hchunks Hsplit Hok Hne Ht. revert HW.
  generalize (split text) as words. intros words HW.
  do 25 (destruct words as [|? words]; [discriminate HW|]).
  destruct words as [|? words]; [|discriminate HW].
  repeat split; try reflexivity; try (simpl; lia).
  constructor.
Qed.

Lemma chunk_text_25_words_witness :
  exists c1 c2 c3 c4 : str,
    chunk_text 4 (TextChunker.mk 10 2) (Samples.sample_text 25)
      = Some [c1; c2; c3; c4]
    /\ split c1 = py_slice (split (Samples.sample_text 25)) 0 10
    /\ split c2 = py_slice (split (Samples.sample_text 25)) 8 18
    /\ split c3 = py_slice (split (Samples.sample_text 25)) 16 25
    /\ split c4 = py_slice (split (Samples.sample_text 25)) 24 25
    /\ map (fun c => length (split c)) [c1; c2; c3; c4]
       = [10; 10; 9; 1]%nat
    /\ Forall (fun c => (length (split c) <= 10)%nat) [c1; c2; c3; c4]
    /\ skipn 8 (split c1) = firstn 2 (split c2)
    /\ skipn 8 (split c2) = firstn 2 (split c3).
Proof.
  apply (chunk_text_25_words (Samples.sample_text 25) 4).
  - vm_compute. reflexivity.
  - apply le_n.
Defined.

Section ChunkDocuments.

Lemma chunk_infos_numbered (filename : str) (chunks : list str) :
  numbered filename chunks (chunk_infos filename chunks).
Proof.
  unfold numbered, chunk_infos. repeat split.
  - rewrite map_map.
    rewrite (map_ext _ fst) by (intros [idx c]; reflexivity).
    rewrite enumerate_fst, <- seq_shift, map_map.
    apply map_ext. intros i. lia.
  - rewrite map_map.
    rewrite (map_ext _ snd) by (intros [idx c]; reflexivity).
    apply enumerate_snd.
  - apply Forall_forall. intros c Hc. apply in_map_iff in Hc.
    destruct Hc as [[idx ct] [<- _]]. split; reflexivity.
Qed.

(** The output of the loop over the documents: one block of chunk
    records per document, in the order of the documents. *)
Lemma chunk_documents_loop_blocks (fuel : nat) (self : TextChunker.t)
    (documents : list (str * str)) :
  forall all_chunks out,
    chunk_documents_loop fuel self documents all_chunks = Some out ->
    exists blocks,
      out = all_chunks ++ concat blocks
      /\ Forall2 (fun doc block =>
                    exists chunks,
                      chunk_text fuel self (snd doc) = Some chunks
                      /\ block = chunk_infos (fst doc) chunks)
                 documents blocks.
Proof.
  induction documents as [|[filename content] rest IH];
    intros all_chunks out H; cbn [chunk_documents_loop] in H.
  - injection H as <-. exists []. split; [|constructor].
    simpl. rewrite app_nil_r. reflexivity.
  - destruct (chunk_text fuel self content) as [chunks|] eqn:Hc;
      [|discriminate H].
    destruct (IH _ _ H) as [blocks [-> HF]].
    exists (chunk_infos filename chunks :: blocks). split.
    + simpl. rewrite app_assoc. reflexivity.
    + constructor; [|exact HF]. exists chunks. split; [exact Hc|reflexivity].
Qed.

Lemma chunk_documents_loop_total (fuel : nat) (self : TextChunker.t)
    (documents : list (str * str)) :
  Forall (fun doc => exists chunks,
              chunk_text fuel self (snd doc) = Some chunks) documents ->
  forall all_chunks,
    exists out,
      chunk_documents_loop fuel self documents all_chunks = Some out.
Proof.
  induction 1 as [|[filename content] rest [chunks Hc] _ IH];
    intros all_chunks; cbn [chunk_documents_loop].
  - eexists. reflexivity.
  - simpl in Hc. rewrite Hc. apply IH.
Qed.

End ChunkDocuments.

(** C9: for every list of documents, whenever [chunk_documents] returns,
    its output is the concatenation, in the order of the documents, of one
    block per document; the block of a document holds one record per chunk
    that [chunk_text] gave for it, in that order, with [chunk_id] running
    through [1 .. N] and [total_chunks = N], [N] the number of those
    chunks.  And it does return, with fuel for as many iterations as the
    longest document has words, when [chunk_size > overlap]. *)
Theorem chunk_documents_numbering :
  forall (self : TextChunker.t) (documents : list (str * str)) (fuel : nat),
    (forall out,
       chunk_documents fuel self documents = Some out ->
       exists blocks : list (list ChunkInfo.t),
         out = concat blocks
         /\ Forall2 (fun doc block =>
                       exists chunks,
                         chunk_text fuel self (snd doc) = Some chunks
                         /\ length block = length chunks
                         /\ numbered (fst doc) chunks block)
                    documents blocks)
    /\ (overlap self < chunk_size self ->
        Forall (fun doc => (length (split (snd doc)) <= fuel)%nat) documents ->
        exists out, chunk_documents fuel self documents = Some out).
Proof.
  intros self documents fuel. split.
  - intros out H. unfold chunk_documents in H.
    destruct (chunk_documents_loop_blocks fuel self documents [] out H)
      as [blocks [-> HF]].
    exists blocks. split; [reflexivity|].
    clear H.
    induction HF as [|doc block docs blocks' [chunks [Hc ->]] _ IH];
      [constructor | constructor; [|exact IH]].
    exists chunks. split; [exact Hc|]. split.
    + unfold chunk_infos. rewrite length_map.
      rewrite <- (length_map snd), enumerate_snd. reflexivity.
    + apply chunk_infos_numbered.
  - intros Hd Hfuel. unfold chunk_documents.
    apply chunk_documents_loop_total.
    eapply Forall_impl; [|exact Hfuel].
    intros doc Hdoc. apply chunk_text_total; [unfold stride; lia | exact Hdoc].
Qed.

Lemma chunk_documents_numbering_witness :
  (exists blocks : list (list ChunkInfo.t),
     [ChunkInfo.mk (py "a") 1 (py "x y z") 3;
      ChunkInfo.mk (py "a") 2 (py "z u v") 3;
      ChunkInfo.mk (py "a") 3 (py "v") 3;
      ChunkInfo.mk (py "b") 1 (py "q") 1] = concat blocks
     /\ Forall2 (fun doc block =>
                   exists chunks,
                     chunk_text 5 (TextChunker.mk 3 1) (snd doc) = Some chunks
                     /\ length block = length chunks
                     /\ numbered (fst doc) chunks block)
                [(py "a", py "x y z u v"); (py "b", py "q")] blocks)
  /\ (exists out,
        chunk_documents 5 (TextChunker.mk 3 1)
          [(py "a", py "x y z u v"); (py "b", py "q")] = Some out).
Proof.
  split.
  - apply (proj1 (chunk_documents_numbering (TextChunker.mk 3 1)
                    [(py "a", py "x y z u v"); (py "b", py "q")] 5)).
    vm_compute. reflexivity.
  - apply (proj2 (chunk_documents_numbering (TextChunker.mk 3 1)
                    [(py "a", py "x y z u v"); (py "b", py "q")] 5)).
    + reflexivity.
    + repeat constructor.
Defined.

(** C4, as stated, fails: the pair [(5, 5)] breaks
    [chunk_size > overlap], and the constructor returns a chunker all the
    same; it raises nothing. *)
Lemma init_unchecked_counterexample :
  ~ valid (TextChunker.mk 5 5)
  /\ TextChunker.__init__ 5 5 = Ok (TextChunker.mk 5 5)
  /\ ~ (exists e, TextChunker.__init__ 5 5 = Raise e).
Proof.
  split; [|split].
  - unfold valid. simpl. lia.
  - reflexivity.
  - intros [e H]. discriminate H.
Qed.

(** C4 (amended): for every pair [(chunk_size, overlap)], whether or not
    it meets [chunk_size > overlap >= 0] and [chunk_size >= 1], the
    constructor succeeds and stores the two values as given; no error is
    raised. *)
Theorem init_stores_unchecked :
  forall chunk_size overlap : Z,
    TextChunker.__init__ chunk_size overlap
    = Ok (TextChunker.mk chunk_size overlap)
    /\ (forall e, TextChunker.__init__ chunk_size overlap <> Raise e).
Proof. intros cs ov. split; [reflexivity | discriminate]. Qed.

(* ================================================================== *)
(** * The query orchestrator *)
(* ================================================================== *)

Section SearchVectors.
Variable post :
  str -> EndeeClient.SearchPayload -> Z -> result EndeeClient.Response.
Variable client : EndeeClient.t.

(** An exception of the transport is caught inside the client, which
    answers with the empty list. *)
Lemma search_vectors_transport_error
    (collection_name : str) (v : list float) (top_k : Z) (meta : bool)
    (e : exception) :
  is_Exception e = true ->
  post (EndeeClient.search_url client collection_name)
    (EndeeClient.mkPayload v top_k false) 60 = Raise e ->
  EndeeClient.search_vectors post client collection_name v top_k meta
  = Ok [].
Proof.
  intros He Hp. unfold EndeeClient.search_vectors. rewrite Hp. simpl. rewrite He.
  reflexivity.
Qed.

(** So is a status other than 200. *)
Lemma search_vectors_bad_status
    (collection_name : str) (v : list float) (top_k : Z) (meta : bool)
    (response : EndeeClient.Response) :
  EndeeClient.status_code response <> 200 ->
  post (EndeeClient.search_url client collection_name)
    (EndeeClient.mkPayload v top_k false) 60 = Ok response ->
  EndeeClient.search_vectors post client collection_name v top_k meta
  = Ok [].
Proof.
  intros Hs Hp. unfold EndeeClient.search_vectors. rewrite Hp. simpl.
  destruct (Z.eqb_spec (EndeeClient.status_code response) 200);
    [contradiction | reflexivity].
Qed.

(** The client raises only what [except Exception] lets through. *)
Lemma search_vectors_raises
    (collection_name : str) (v : list float) (top_k : Z) (meta : bool)
    (e : exception) :
  EndeeClient.search_vectors post client collection_name v top_k meta
  = Raise e ->
  is_Exception e = false.
Proof.
  unfold EndeeClient.search_vectors, try_except, bind.
  destruct (post _ _ _) as [response|e0].
  - destruct (negb _); [discriminate|].
    destruct (EndeeClient.json response) as [[results|items|]|e1];
      try discriminate.
    destruct (is_Exception e1) eqn:He1; [discriminate|].
    intros H. rewrite ?He1 in H. congruence.
  - destruct (is_Exception e0) eqn:He0; [discriminate|].
    intros H. rewrite ?He0 in H. congruence.
Qed.
End SearchVectors.

Section Query.
Variable encode : str -> result (list float).
Variable search_vectors :
  str -> list float -> Z -> bool -> result (list SearchResult.t).
Variable generate_response :
  str -> str -> list SourceInfo.t -> result (option str).
Variable collection_name : str.
Variable top_k : Z.
Variable round : float -> Z -> float.

(** Step 1 is outside every [try]: what [encode] raises, [query] raises. *)
Lemma query_encode_raises (question : str) (verbose : bool)
    (e : exception) :
  encode question = Raise e ->
  QueryEngine.query encode search_vectors generate_response
    collection_name top_k round question verbose = Raise e.
Proof.
  intros H. unfold QueryEngine.query. rewrite H. reflexivity.
Qed.

(** Step 2: an [Exception] of the search becomes the error outcome. *)
Lemma query_search_raises (question : str) (verbose : bool)
    (v : list float) (e : exception) :
  encode question = Ok v ->
  search_vectors collection_name v top_k true = Raise e ->
  is_Exception e = true ->
  QueryEngine.query encode search_vectors generate_response
    collection_name top_k round question verbose
  = Ok (QueryOutcome.mk question QueryEngine.search_error_answer (Some [])
          None (Some (str_of_exception e))).
Proof.
  intros Hv Hs He. unfold QueryEngine.query.
  rewrite Hv. simpl. rewrite Hs, He. reflexivity.
Qed.

(** An empty result list becomes the outcome for no information. *)
Lemma query_search_empty (question : str) (verbose : bool)
    (v : list float) :
  encode question = Ok v ->
  search_vectors collection_name v top_k true = Ok [] ->
  QueryEngine.query encode search_vectors generate_response
    collection_name top_k round question verbose
  = Ok (QueryOutcome.mk question QueryEngine.no_results_answer (Some [])
          None None).
Proof.
  intros Hv Hs. unfold QueryEngine.query.
  rewrite Hv. simpl. rewrite Hs. reflexivity.
Qed.
End Query.

(** C1, as stated, fails on the engine of this repository: when the
    transport to the store refuses the connection, the client turns the
    exception into an empty result list, and [query] returns the answer
    for no information, not an answer of the error class, and no [error]
    field. *)
Lemma query_transport_error_counterexample :
  is_Exception Samples.connection_refused = true
  /\ Samples.post_refused
       (EndeeClient.search_url Samples.client Samples.collection)
       (EndeeClient.mkPayload [0.5%float; 0.25%float] 3 false) 60
     = Raise Samples.connection_refused
  /\ exists outcome,
       QueryEngine.query_endee Samples.encode_ok Samples.post_refused
         Samples.generate_fixed Samples.client Samples.collection 3
         Samples.round_id Samples.question true
       = Ok outcome
       /\ QueryEngine.is_error_answer (QueryOutcome.answer outcome) = false
       /\ QueryOutcome.error outcome = None.
Proof.
  split; [reflexivity|]. split; [reflexivity|].
  eexists. split; [reflexivity|]. split; [vm_compute|]; reflexivity.
Qed.

(** C1 (amended): for every question whose embedding succeeds and every
    exception [e] that [except Exception] catches:
    - if the call of [search_vectors] raises [e], [query] returns the
      answer of the error class, an empty list of sources and
      [error = str(e)]; nothing is raised;
    - if the transport under [EndeeClient.search_vectors] raises [e], the
      client returns the empty list, and [query] returns the answer for no
      information, an empty list of sources and no [error] field; nothing
      is raised either. *)
Theorem query_search_failure :
  forall (encode : str -> result (list float))
         (generate_response :
            str -> str -> list SourceInfo.t -> result (option str))
         (collection_name : str) (top_k : Z) (round : float -> Z -> float)
         (question : str) (verbose : bool) (v : list float) (e : exception),
    encode question = Ok v ->
    is_Exception e = true ->
    (forall search_vectors,
        search_vectors collection_name v top_k true = Raise e ->
        QueryEngine.query encode search_vectors generate_response
          collection_name top_k round question verbose
        = Ok (QueryOutcome.mk question QueryEngine.search_error_answer
                (Some []) None (Some (str_of_exception e))))
    /\ QueryEngine.is_error_answer QueryEngine.search_error_answer = true
    /\ (forall post client,
          post (EndeeClient.search_url client collection_name)
            (EndeeClient.mkPayload v top_k false) 60 = Raise e ->
          EndeeClient.search_vectors post client collection_name v top_k true
          = Ok []
          /\ QueryEngine.query_endee encode post generate_response client
               collection_name top_k round question verbose
             = Ok (QueryOutcome.mk question QueryEngine.no_results_answer
                     (Some []) None None)).
Proof.
  intros encode generate_response collection_name top_k round question
    verbose v e Hv He.
  split; [|split].
  - intros search_vectors Hs. apply (query_search_raises _ _ _ _ _ _ _ _ v e);
      assumption.
  - vm_compute. reflexivity.
  - intros post client Hp.
    pose proof (search_vectors_transport_error post client collection_name
                  v top_k true e He Hp) as Hs.
    split; [exact Hs|].
    unfold QueryEngine.query_endee.
    apply (query_search_empty _ _ _ _ _ _ _ _ v); assumption.
Qed.

Lemma query_search_failure_witness :
  QueryEngine.query Samples.encode_ok Samples.search_raising
    Samples.generate_fixed Samples.collection 3 Samples.round_id
    Samples.question true
  = Ok (QueryOutcome.mk Samples.question QueryEngine.search_error_answer
          (Some []) None (Some (py "Connection refused")))
  /\ QueryEngine.query_endee Samples.encode_ok Samples.post_refused
       Samples.generate_fixed Samples.client Samples.collection 3
       Samples.round_id Samples.question true
     = Ok (QueryOutcome.mk Samples.question QueryEngine.no_results_answer
             (Some []) None None).
Proof.
  destruct (query_search_failure Samples.encode_ok Samples.generate_fixed
              Samples.collection 3 Samples.round_id Samples.question true
              [0.5%float; 0.25%float] Samples.connection_refused
              eq_refl eq_refl) as [Hraise [_ Hclient]].
  split.
  - apply (Hraise Samples.search_raising). reflexivity.
  - apply (Hclient Samples.post_refused Samples.client). reflexivity.
Defined.

(** C3 fails on the code: with an embedder whose model cannot be loaded,
    [query] ends in that very exception; it returns no outcome. *)
Theorem query_embedding_failure_propagates :
  QueryEngine.query Samples.encode_failing Samples.search_empty
    Samples.generate_fixed Samples.collection 3 Samples.round_id
    Samples.question true
  = Raise (mkException RuntimeError (py "model could not be loaded"))
  /\ is_Exception (mkException RuntimeError (py "model could not be loaded"))
     = true.
Proof. split; reflexivity. Qed.

(** C7: for every question whose embedding succeeds, if the search returns
    no result, [query] returns the answer for no information with an empty
    list of sources; that answer is not of the error class and the outcome
    has no [error] field, unlike the outcome of a failed search. *)
Theorem query_no_results :
  forall (encode : str -> result (list float))
         (search_vectors :
            str -> list float -> Z -> bool -> result (list SearchResult.t))
         (generate_response :
            str -> str -> list SourceInfo.t -> result (option str))
         (collection_name : str) (top_k : Z) (round : float -> Z -> float)
         (question : str) (verbose : bool) (v : list float),
    encode question = Ok v ->
    search_vectors collection_name v top_k true = Ok [] ->
    exists outcome,
      QueryEngine.query encode search_vectors generate_response
        collection_name top_k round question verbose = Ok outcome
      /\ QueryOutcome.query outcome = question
      /\ QueryOutcome.answer outcome = QueryEngine.no_results_answer
      /\ QueryOutcome.sources outcome = Some []
      /\ QueryOutcome.error outcome = None
      /\ QueryEngine.is_error_answer (QueryOutcome.answer outcome) = false
      /\ QueryOutcome.answer outcome <> QueryEngine.search_error_answer.
Proof.
  intros encode search_vectors generate_response collection_name top_k round
    question verbose v Hv Hs.
  eexists. split.
  - apply (query_search_empty _ _ _ _ _ _ _ _ v); assumption.
  - simpl. repeat split; try reflexivity; vm_compute; discriminate.
Qed.

Lemma query_no_results_witness :
  exists outcome,
    QueryEngine.query Samples.encode_ok Samples.search_empty
      Samples.generate_fixed Samples.collection 3 Samples.round_id
      Samples.question true = Ok outcome
    /\ QueryOutcome.query outcome = Samples.question
    /\ QueryOutcome.answer outcome = QueryEngine.no_results_answer
    /\ QueryOutcome.sources outcome = Some []
    /\ QueryOutcome.error outcome = None
    /\ QueryEngine.is_error_answer (QueryOutcome.answer outcome) = false
    /\ QueryOutcome.answer outcome <> QueryEngine.search_error_answer.
Proof.
  apply (query_no_results Samples.encode_ok Samples.search_empty
           Samples.generate_fixed Samples.collection 3 Samples.round_id
           Samples.question true [0.5%float; 0.25%float]);
    reflexivity.
Defined.

(* ================================================================== *)
(** * Further properties of the chunker *)
(* ================================================================== *)

Section ChunkWords.
Variable self : TextChunker.t.
Variable words : list str.
Hypothesis words_ok : Forall word_ok words.
Hypothesis size_nonneg : 0 <= chunk_size self.

(** The words of the chunk of any window that starts at or after word 0,
    also one that starts past the end of the text. *)
Lemma split_chunk_at_from (start : Z) :
  0 <= start ->
  split (chunk_at self words start)
  = firstn (Z.to_nat (chunk_size self)) (skipn (Z.to_nat start) words).
Proof.
  intros Hs.
  destruct (Z_le_gt_dec start (Z.of_nat (length words))) as [Hle|Hgt].
  - apply split_chunk_at; [assumption | assumption | lia].
  - rewrite (skipn_all2 words) by lia. rewrite firstn_nil.
    unfold chunk_at, py_slice, adjust_index.
    rewrite Z.min_r by lia.
    destruct (Z.ltb_spec start 0); [lia|].
    destruct (Z.ltb_spec (Z.of_nat (length words)) start); [|lia].
    destruct (Z.ltb_spec (Z.of_nat (length words)) 0); [lia|].
    destruct (Z.ltb_spec (Z.of_nat (length words)) (Z.of_nat (length words)));
      [lia|].
    rewrite Z.sub_diag. reflexivity.
Qed.

(** A chunk is the blank-separated list of its own words. *)
Lemma chunk_at_normal (start : Z) :
  join (py " ") (split (chunk_at self words start))
  = chunk_at self words start.
Proof.
  unfold chunk_at. rewrite split_join; [reflexivity|].
  apply py_slice_Forall, words_ok.
Qed.

(** The first [stride] words of the windows from [start] on, one window
    after the other, are the words of the text from [start] on. *)
Lemma windows_from_cover (n : nat) (start : Z) :
  0 <= start -> 0 < stride self -> stride self <= chunk_size self ->
  Z.of_nat (length words) - start <= Z.of_nat n * stride self ->
  concat (map (fun c => firstn (Z.to_nat (stride self)) (split c))
              (windows_from self words n start))
  = skipn (Z.to_nat start) words.
Proof.
  intros Hs Hd Hdc. revert start Hs.
  induction n as [|n IH]; intros start Hs Hn; cbn [windows_from map concat].
  - rewrite skipn_all2 by lia. reflexivity.
  - rewrite IH by nia. rewrite split_chunk_at_from by assumption.
    rewrite firstn_firstn. rewrite Nat.min_l by lia.
    replace (Z.to_nat (start + stride self))
      with (Z.to_nat (stride self) + Z.to_nat start)%nat by lia.
    rewrite <- skipn_skipn. apply firstn_skipn.
Qed.
End ChunkWords.

Section ChunkTextLong.

(** The chunks of a long text, with fuel for as many iterations as the
    text has words. *)
Lemma chunk_text_long (fuel : nat) (self : TextChunker.t) (text : str) :
  overlap self < chunk_size self -> chunk_size self < total_words text ->
  1 <= total_words text ->
  (length (split text) <= fuel)%nat ->
  chunk_text fuel self text
  = Some (windows_from self (split text)
            (Z.to_nat (ceil_div (total_words text) (stride self))) 0).
Proof.
  intros Hd HW H1 Hf.
  assert (Hs : 0 < stride self) by (unfold stride; lia).
  apply chunk_text_windows; try assumption.
  - apply total_words_nonempty, H1.
  - pose proof (ceil_div_le (total_words text) (stride self) Hs).
    unfold total_words in *. lia.
Qed.

Lemma chunk_loop_acc (documents : list (str * str)) :
  forall (fuel : nat) (self : TextChunker.t) (all_chunks : list ChunkInfo.t),
    chunk_documents_loop fuel self documents all_chunks
    = option_map (app all_chunks) (chunk_documents fuel self documents).
Proof.
  unfold chunk_documents.
  induction documents as [|[filename content] rest IH];
    intros fuel self all_chunks; cbn [chunk_documents_loop].
  - simpl. rewrite app_nil_r. reflexivity.
  - destruct (chunk_text fuel self content) as [chunks|]; [|reflexivity].
    rewrite IH, (IH fuel self ([] ++ _)).
    destruct (chunk_documents_loop fuel self rest []); simpl;
      [rewrite app_assoc|]; reflexivity.
Qed.
End ChunkTextLong.

(** X1: under [chunk_size > overlap >= 0], no word of a text longer than
    [chunk_size] words is lost or reordered by [chunk_text]: the first
    [chunk_size - overlap] words of every chunk, taken chunk after chunk,
    are exactly the words of the text. *)
Theorem chunk_text_keeps_every_word :
  forall (self : TextChunker.t) (text : str) (fuel : nat),
    0 <= overlap self -> overlap self < chunk_size self ->
    chunk_size self < total_words text ->
    (length (split text) <= fuel)%nat ->
    exists chunks,
      chunk_text fuel self text = Some chunks
      /\ concat (map (fun c => firstn (Z.to_nat (stride self)) (split c))
                     chunks)
         = split text.
Proof.
  intros self text fuel Hov Hd HW Hf.
  assert (Hs : 0 < stride self) by (unfold stride; lia).
  eexists. split; [apply chunk_text_long; try assumption; lia|].
  rewrite windows_from_cover; try (unfold stride; lia).
  - reflexivity.
  - apply split_words_ok.
  - pose proof (ceil_div_bounds (total_words text) (stride self) Hs).
    pose proof (ceil_div_pos (total_words text) (stride self) Hs).
    fold (total_words text). lia.
Qed.

Lemma chunk_text_keeps_every_word_witness :
  exists chunks,
    chunk_text 5 (TextChunker.mk 3 1) (py "a b c d e") = Some chunks
    /\ concat (map (fun c => firstn 2 (split c)) chunks)
       = split (py "a b c d e").
Proof.
  apply (chunk_text_keeps_every_word (TextChunker.mk 3 1) (py "a b c d e") 5).
  - vm_compute. discriminate.
  - reflexivity.
  - reflexivity.
  - apply le_n.
Defined.

(** X2: under [chunk_size > overlap >= 0] every chunk [chunk_text]
    returns, for any text, has at least one word and at most
    [chunk_size] words: no chunk is blank and none exceeds the limit. *)
Theorem chunk_text_chunk_sizes :
  forall (self : TextChunker.t) (text : str) (fuel : nat),
    0 <= overlap self -> overlap self < chunk_size self ->
    (length (split text) <= fuel)%nat ->
    exists chunks,
      chunk_text fuel self text = Some chunks
      /\ Forall (fun c => 1 <= _estimate_tokens c <= chunk_size self) chunks.
Proof.
  intros self text fuel Hov Hd Hf.
  assert (Hs : 0 < stride self) by (unfold stride; lia).
  destruct (split text) as [|w ws] eqn:Hw.
  { exists []. split; [|constructor].
    apply chunk_text_blank, split_nil_iff, Hw. }
  assert (H1 : 1 <= total_words text)
    by (unfold total_words; rewrite Hw; simpl; lia).
  destruct (Z_le_gt_dec (total_words text) (chunk_size self)) as [Hle|Hgt].
  { exists [text]. split.
    - apply chunk_text_small; [apply total_words_nonempty, H1 | exact Hle].
    - repeat constructor; fold (total_words text); assumption. }
  eexists. split.
  { apply chunk_text_long; try assumption; [lia | rewrite Hw; exact Hf]. }
  rewrite windows_from_map. apply Forall_forall. intros c Hc.
  apply in_map_iff in Hc. destruct Hc as [i [<- Hi]].
  apply in_seq in Hi.
  pose proof (ceil_div_bounds (total_words text) (stride self) Hs) as [Hlo _].
  pose proof (ceil_div_pos (total_words text) (stride self) Hs) as Hpos.
  unfold _estimate_tokens.
  rewrite split_chunk_at_from; [|apply split_words_ok|lia|lia].
  rewrite length_firstn, length_skipn. unfold total_words in *. nia.
Qed.

Lemma chunk_text_chunk_sizes_witness :
  exists chunks,
    chunk_text 5 (TextChunker.mk 3 1) (py "a b c d e") = Some chunks
    /\ Forall (fun c => 1 <= _estimate_tokens c <= 3) chunks.
Proof.
  apply (chunk_text_chunk_sizes (TextChunker.mk 3 1) (py "a b c d e") 5).
  - vm_compute. discriminate.
  - reflexivity.
  - apply le_n.
Defined.

(** X3: the chunks of a text longer than [chunk_size] words carry no
    white space of the text: every chunk is its own words joined by single
    blanks (a text of at most [chunk_size] words is returned as it is,
    with its white space). *)
Theorem chunk_text_long_is_normalised :
  forall (self : TextChunker.t) (text : str) (fuel : nat),
    overlap self < chunk_size self ->
    1 <= total_words text -> chunk_size self < total_words text ->
    (length (split text) <= fuel)%nat ->
    exists chunks,
      chunk_text fuel self text = Some chunks
      /\ Forall (fun c => join (py " ") (split c) = c) chunks.
Proof.
  intros self text fuel Hd H1 HW Hf.
  eexists. split; [apply chunk_text_long; assumption|].
  rewrite windows_from_map. apply Forall_forall. intros c Hc.
  apply in_map_iff in Hc. destruct Hc as [i [<- _]].
  apply chunk_at_normal, split_words_ok.
Qed.

Lemma chunk_text_long_is_normalised_witness :
  exists chunks,
    chunk_text 3 (TextChunker.mk 2 0) [32; 97; 9; 9; 98; 10; 99]%N
      = Some chunks
    /\ Forall (fun c => join (py " ") (split c) = c) chunks.
Proof.
  apply (chunk_text_long_is_normalised (TextChunker.mk 2 0)
           [32; 97; 9; 9; 98; 10; 99]%N 3).
  - reflexivity.
  - vm_compute. discriminate.
  - reflexivity.
  - apply le_n.
Defined.

Section ChunkDocumentsApp.
Lemma chunk_documents_concat (self : TextChunker.t) (fuel : nat)
    (documents1 documents2 : list (str * str)) :
  chunk_documents fuel self (documents1 ++ documents2)
  = match chunk_documents fuel self documents1,
          chunk_documents fuel self documents2 with
    | Some out1, Some out2 => Some (out1 ++ out2)
    | _, _ => None
    end.
Proof.
  induction documents1 as [|[filename content] rest IH].
  - simpl. destruct (chunk_documents fuel self documents2); reflexivity.
  - unfold chunk_documents in *. cbn [app chunk_documents_loop].
    destruct (chunk_text fuel self content) as [chunks|]; [|reflexivity].
    rewrite !(chunk_loop_acc _ fuel self (chunk_infos filename chunks)).
    unfold chunk_documents. rewrite IH.
    destruct (chunk_documents_loop fuel self rest []);
      destruct (chunk_documents_loop fuel self documents2 []); simpl;
      [rewrite app_assoc|..]; reflexivity.
Qed.
End ChunkDocumentsApp.

(** X4: [chunk_documents] treats the documents one by one: the output for
    two lists of documents put one after the other is the output for the
    first followed by the output for the second (and it returns for the
    whole exactly when it returns for both). *)
Theorem chunk_documents_app :
  forall (self : TextChunker.t) (fuel : nat)
         (documents1 documents2 : list (str * str)),
    chunk_documents fuel self (documents1 ++ documents2)
    = match chunk_documents fuel self documents1,
            chunk_documents fuel self documents2 with
      | Some out1, Some out2 => Some (out1 ++ out2)
      | _, _ => None
      end.
Proof. intros. apply chunk_documents_concat. Qed.

(** X5: a document that is empty or white space only leaves no trace in
    the output of [chunk_documents]: dropping such documents from the
    input does not change the output. *)
Theorem chunk_documents_skips_blank :
  forall (self : TextChunker.t) (fuel : nat) (documents : list (str * str)),
    chunk_documents fuel self documents
    = chunk_documents fuel self
        (filter (fun doc : str * str => negb (forallb isspace (snd doc)))
           documents).
Proof.
  intros self fuel documents.
  set (keep := fun doc : str * str => negb (forallb isspace (snd doc))).
  induction documents as [|[filename content] rest IH]; [reflexivity|].
  change ((filename, content) :: rest) with ([(filename, content)] ++ rest).
  rewrite filter_app, !chunk_documents_concat, <- IH.
  subst keep. cbn [filter snd].
  destruct (forallb isspace content) eqn:Hb; cbn [negb]; [|reflexivity].
  unfold chunk_documents at 1. cbn [chunk_documents_loop].
  rewrite (chunk_text_blank fuel self content Hb). cbn.
  destruct (chunk_documents fuel self rest); reflexivity.
Qed.

(* ================================================================== *)
(** * Further properties of the query orchestrator *)
(* ================================================================== *)

Section QueryPaths.
Variable encode : str -> result (list float).
Variable search_vectors :
  str -> list float -> Z -> bool -> result (list SearchResult.t).
Variable generate_response :
  str -> str -> list SourceInfo.t -> result (option str).
Variable collection_name : str.
Variable top_k : Z.
Variable round : float -> Z -> float.

(** From step 3 on, when the search has given results. *)
Lemma query_with_results (question : str) (verbose : bool)
    (v : list float) (results : list SearchResult.t) :
  encode question = Ok v ->
  search_vectors collection_name v top_k true = Ok results ->
  results <> [] ->
  QueryEngine.query encode search_vectors generate_response
    collection_name top_k round question verbose
  = bind (generate_response (QuerySpec.full_context results) question
            (map (QueryEngine.source_info round) results))
      (fun answer =>
         if falsy (get answer []) then
           Ok (QueryOutcome.mk question QueryEngine.generation_error_answer
                 (Some (if verbose
                        then map (QueryEngine.source_info round) results
                        else []))
                 None None)
         else
           Ok (QueryOutcome.mk question (get answer [])
                 (if verbose
                  then Some (map (QueryEngine.source_info round) results)
                  else None)
                 (if verbose then Some (Z.of_nat (length results)) else None)
                 None)).
Proof.
  intros Hv Hs Hne. unfold QueryEngine.query. rewrite Hv. cbn [bind].
  rewrite Hs. apply falsy_false_iff in Hne. rewrite Hne.
  rewrite length_map. reflexivity.
Qed.

(** The preview of a chunk in a source: the text, or its first 200
    characters and three dots. *)
Lemma source_info_preview (r : SearchResult.t) :
  (length (SourceInfo.chunk_text (QueryEngine.source_info round r)) <= 203)%nat
  /\ firstn 200 (SourceInfo.chunk_text (QueryEngine.source_info round r))
     = firstn 200 (QuerySpec.result_text r).
Proof.
  unfold QueryEngine.source_info, QuerySpec.result_text. cbn [SourceInfo.chunk_text].
  set (text := get (Metadata.chunk_text
                      (get (SearchResult.metadata r) Metadata.empty)) []).
  destruct (Z.ltb_spec 200 (Z.of_nat (length text))) as [Hlong|Hshort].
  - split.
    + rewrite length_app, length_firstn.
      change (length (py "...")) with 3%nat. lia.
    + rewrite firstn_app, firstn_firstn, length_firstn.
      replace (200 - Nat.min 200 (length text))%nat with 0%nat by lia.
      rewrite Nat.min_id. cbn [firstn]. apply app_nil_r.
  - split; [lia | reflexivity].
Qed.

(** Every way [query] returns. *)
Lemma query_returns (question : str) (verbose : bool) (o : QueryOutcome.t) :
  QueryEngine.query encode search_vectors generate_response
    collection_name top_k round question verbose = Ok o ->
  exists v,
    encode question = Ok v
    /\ ((exists e,
           search_vectors collection_name v top_k true = Raise e
           /\ is_Exception e = true
           /\ o = QueryOutcome.mk question QueryEngine.search_error_answer
                    (Some []) None (Some (str_of_exception e)))
        \/ (search_vectors collection_name v top_k true = Ok []
            /\ o = QueryOutcome.mk question QueryEngine.no_results_answer
                     (Some []) None None)
        \/ (exists results answer,
              search_vectors collection_name v top_k true = Ok results
              /\ results <> []
              /\ generate_response (QuerySpec.full_context results) question
                   (map (QueryEngine.source_info round) results) = Ok answer
              /\ ((falsy (get answer []) = true
                   /\ o = QueryOutcome.mk question
                            QueryEngine.generation_error_answer
                            (Some (if verbose
                                   then map (QueryEngine.source_info round)
                                          results
                                   else []))
                            None None)
                  \/ (falsy (get answer []) = false
                      /\ o = QueryOutcome.mk question (get answer [])
                               (if verbose
                                then Some (map (QueryEngine.source_info round)
                                             results)
                                else None)
                               (if verbose
                                then Some (Z.of_nat (length results))
                                else None)
                               None)))).
Proof.
  intros H.
  destruct (encode question) as [v|e0] eqn:Hv.
  2:{ unfold QueryEngine.query in H. rewrite Hv in H. discriminate H. }
  exists v. split; [reflexivity|].
  destruct (search_vectors collection_name v top_k true) as [results|e] eqn:Hs.
  - destruct results as [|r results].
    + right. left. split; [reflexivity|].
      rewrite (query_search_empty _ _ _ _ _ _ _ _ v Hv Hs) in H. congruence.
    + right. right.
      rewrite (query_with_results _ _ v (r :: results) Hv Hs) in H
        by discriminate.
      destruct (generate_response _ _ _) as [answer|e1] eqn:Hg;
        [|discriminate H].
      exists (r :: results), answer.
      split; [reflexivity|]. split; [discriminate|]. split; [exact Hg|].
      cbn [bind] in H. destruct (falsy (get answer [])).
      * left. split; [reflexivity|]. congruence.
      * right. split; [reflexivity|]. congruence.
  - left. exists e. split; [reflexivity|].
    unfold QueryEngine.query in H. rewrite Hv in H. cbn [bind] in H.
    rewrite Hs in H. destruct (is_Exception e); [|discriminate H].
    split; [reflexivity|]. congruence.
Qed.
End QueryPaths.

(** X6: when the search gives results and the formatter gives a non-empty
    answer, [query] returns that answer and no [error]; in verbose mode
    the sources are one per search result, in the order of the store, with
    [num_sources] their count; otherwise the outcome has neither key. *)
Theorem query_sources_follow_results :
  forall (encode : str -> result (list float))
         (search_vectors :
            str -> list float -> Z -> bool -> result (list SearchResult.t))
         (generate_response :
            str -> str -> list SourceInfo.t -> result (option str))
         (collection_name : str) (top_k : Z) (round : float -> Z -> float)
         (question : str) (verbose : bool) (v : list float)
         (results : list SearchResult.t) (answer : str),
    encode question = Ok v ->
    search_vectors collection_name v top_k true = Ok results ->
    results <> [] ->
    generate_response (QuerySpec.full_context results) question
      (map (QueryEngine.source_info round) results) = Ok (Some answer) ->
    answer <> [] ->
    exists o,
      QueryEngine.query encode search_vectors generate_response
        collection_name top_k round question verbose = Ok o
      /\ QueryOutcome.answer o = answer
      /\ QueryOutcome.error o = None
      /\ (verbose = true ->
          QueryOutcome.sources o
            = Some (map (QueryEngine.source_info round) results)
          /\ QueryOutcome.num_sources o = Some (Z.of_nat (length results)))
      /\ (verbose = false ->
          QueryOutcome.sources o = None
          /\ QueryOutcome.num_sources o = None).
Proof.
  intros encode search_vectors generate_response collection_name top_k round
    question verbose v results answer Hv Hs Hne Hg Ha.
  rewrite (query_with_results _ _ _ _ _ _ _ _ v results Hv Hs Hne), Hg.
  cbn [bind get]. apply falsy_false_iff in Ha. rewrite Ha.
  eexists. split; [reflexivity|]. cbn [QueryOutcome.answer
    QueryOutcome.error QueryOutcome.sources QueryOutcome.num_sources].
  split; [reflexivity|]. split; [reflexivity|].
  split; intros ->; split; reflexivity.
Qed.

Lemma query_sources_follow_results_witness :
  exists o,
    QueryEngine.query Samples.encode_ok Fixtures.search_two
      Samples.generate_fixed Samples.collection 3 Samples.round_id
      Samples.question true = Ok o
    /\ QueryOutcome.answer o
       = py "Based on the knowledge base, here's what I found:"
    /\ QueryOutcome.error o = None
    /\ (true = true ->
        QueryOutcome.sources o
          = Some (map (QueryEngine.source_info Samples.round_id)
                    [Fixtures.hit1; Fixtures.hit_bare])
        /\ QueryOutcome.num_sources o = Some 2)
    /\ (true = false ->
        QueryOutcome.sources o = None
        /\ QueryOutcome.num_sources o = None).
Proof.
  apply (query_sources_follow_results Samples.encode_ok Fixtures.search_two
           Samples.generate_fixed Samples.collection 3 Samples.round_id
           Samples.question true [0.5%float; 0.25%float]
           [Fixtures.hit1; Fixtures.hit_bare]
           (py "Based on the knowledge base, here's what I found:")).
  - reflexivity.
  - reflexivity.
  - discriminate.
  - reflexivity.
  - discriminate.
Defined.

(** X7: in every outcome [query] returns, the text of every source is at
    most 203 characters long: the chunk text, or its first 200 characters
    followed by three dots. *)
Theorem query_source_previews_bounded :
  forall (encode : str -> result (list float))
         (search_vectors :
            str -> list float -> Z -> bool -> result (list SearchResult.t))
         (generate_response :
            str -> str -> list SourceInfo.t -> result (option str))
         (collection_name : str) (top_k : Z) (round : float -> Z -> float)
         (question : str) (verbose : bool) (o : QueryOutcome.t)
         (sources : list SourceInfo.t),
    QueryEngine.query encode search_vectors generate_response
      collection_name top_k round question verbose = Ok o ->
    QueryOutcome.sources o = Some sources ->
    Forall (fun s => (length (SourceInfo.chunk_text s) <= 203)%nat) sources.
Proof.
  intros encode search_vectors generate_response collection_name top_k round
    question verbose o sources H Hsrc.
  assert (Hmap : forall results,
    Forall (fun s => (length (SourceInfo.chunk_text s) <= 203)%nat)
      (map (QueryEngine.source_info round) results)).
  { intros results. apply Forall_forall. intros s Hin.
    apply in_map_iff in Hin. destruct Hin as [r [<- _]].
    apply source_info_preview. }
  destruct (query_returns _ _ _ _ _ _ _ _ _ H)
    as [v [_ [[e [_ [_ ->]]] | [[_ ->] | [results [answer [_ [_ [_ Ho]]]]]]]]];
    cbn in Hsrc.
  - injection Hsrc as <-. constructor.
  - injection Hsrc as <-. constructor.
  - destruct Ho as [[_ ->] | [_ ->]]; cbn in Hsrc; destruct verbose;
      try discriminate Hsrc; injection Hsrc as <-;
      first [apply Hmap | constructor].
Qed.

Lemma query_source_previews_bounded_witness :
  Forall (fun s => (length (SourceInfo.chunk_text s) <= 203)%nat)
    (map (QueryEngine.source_info Samples.round_id)
       [Fixtures.hit1; Fixtures.hit_bare])
  /\ length (QuerySpec.result_text Fixtures.hit1) = 250%nat.
Proof.
  split; [|reflexivity].
  apply (query_source_previews_bounded Samples.encode_ok Fixtures.search_two
           Samples.generate_fixed Samples.collection 3 Samples.round_id
           Samples.question true
           (QueryOutcome.mk Samples.question
              (py "Based on the knowledge base, here's what I found:")
              (Some (map (QueryEngine.source_info Samples.round_id)
                       [Fixtures.hit1; Fixtures.hit_bare]))
              (Some 2) None)).
  - reflexivity.
  - reflexivity.
Defined.

(** X8: when the search gives results and the formatter gives [None] or
    the empty string, [query] returns the answer for a failed generation,
    with the sources in verbose mode and an empty list otherwise; the
    outcome has no [error] and no [num_sources] key. *)
Theorem query_generation_failure :
  forall (encode : str -> result (list float))
         (search_vectors :
            str -> list float -> Z -> bool -> result (list SearchResult.t))
         (generate_response :
            str -> str -> list SourceInfo.t -> result (option str))
         (collection_name : str) (top_k : Z) (round : float -> Z -> float)
         (question : str) (verbose : bool) (v : list float)
         (results : list SearchResult.t) (answer : option str),
    encode question = Ok v ->
    search_vectors collection_name v top_k true = Ok results ->
    results <> [] ->
    generate_response (QuerySpec.full_context results) question
      (map (QueryEngine.source_info round) results) = Ok answer ->
    answer = None \/ answer = Some [] ->
    QueryEngine.query encode search_vectors generate_response
      collection_name top_k round question verbose
    = Ok (QueryOutcome.mk question QueryEngine.generation_error_answer
            (Some (if verbose
                   then map (QueryEngine.source_info round) results
                   else []))
            None None).
Proof.
  intros encode search_vectors generate_response collection_name top_k round
    question verbose v results answer Hv Hs Hne Hg Ha.
  rewrite (query_with_results _ _ _ _ _ _ _ _ v results Hv Hs Hne), Hg.
  destruct Ha as [-> | ->]; reflexivity.
Qed.

Lemma query_generation_failure_witness :
  QueryEngine.query Samples.encode_ok Fixtures.search_two
    Fixtures.generate_none Samples.collection 3 Samples.round_id
    Samples.question false
  = Ok (QueryOutcome.mk Samples.question QueryEngine.generation_error_answer
          (Some []) None None).
Proof.
  apply (query_generation_failure Samples.encode_ok Fixtures.search_two
           Fixtures.generate_none Samples.collection 3 Samples.round_id
           Samples.question false [0.5%float; 0.25%float]
           [Fixtures.hit1; Fixtures.hit_bare] None).
  - reflexivity.
  - reflexivity.
  - discriminate.
  - reflexivity.
  - left. reflexivity.
Defined.

(** X9: every outcome [query] returns repeats the question; in verbose
    mode it has a [sources] key; an [error] key comes only with the answer
    for a failed search and an empty list of sources; and [num_sources],
    when present, is the length of [sources] and not zero. *)
Theorem query_outcome_invariants :
  forall (encode : str -> result (list float))
         (search_vectors :
            str -> list float -> Z -> bool -> result (list SearchResult.t))
         (generate_response :
            str -> str -> list SourceInfo.t -> result (option str))
         (collection_name : str) (top_k : Z) (round : float -> Z -> float)
         (question : str) (verbose : bool) (o : QueryOutcome.t),
    QueryEngine.query encode search_vectors generate_response
      collection_name top_k round question verbose = Ok o ->
    QueryOutcome.query o = question
    /\ (verbose = true -> QueryOutcome.sources o <> None)
    /\ (QueryOutcome.error o <> None ->
        QueryOutcome.answer o = QueryEngine.search_error_answer
        /\ QueryOutcome.sources o = Some [])
    /\ (forall n, QueryOutcome.num_sources o = Some n ->
        0 < n
        /\ exists sources,
             QueryOutcome.sources o = Some sources
             /\ n = Z.of_nat (length sources)).
Proof.
  intros encode search_vectors generate_response collection_name top_k round
    question verbose o H.
  destruct (query_returns _ _ _ _ _ _ _ _ _ H)
    as [v [_ [[e [_ [_ ->]]] | [[_ ->] | [results [answer [_ [Hne [_ Ho]]]]]]]]];
    cbn.
  - repeat split; try discriminate; try congruence.
  - repeat split; try discriminate; try congruence.
  - destruct Ho as [[_ ->] | [_ ->]]; cbn.
    + repeat split; try discriminate; try congruence.
    + split; [reflexivity|]. split; [intros ->; discriminate|].
      split; [congruence|]. intros n Hn. destruct verbose; [|discriminate Hn].
      injection Hn as <-. split.
      * destruct results; [congruence | simpl; lia].
      * eexists. split; [reflexivity|]. rewrite length_map. reflexivity.
Qed.

Lemma query_outcome_invariants_witness :
  QueryOutcome.query
    (QueryOutcome.mk Samples.question QueryEngine.no_results_answer
       (Some []) None None) = Samples.question.
Proof.
  apply (query_outcome_invariants Samples.encode_ok Samples.search_empty
           Samples.generate_fixed Samples.collection 3 Samples.round_id
           Samples.question true).
  reflexivity.
Defined.



(* ================================================================== *)
(** * The response formatter *)
(* ================================================================== *)

Section JoinLemmas.

End JoinLemmas.

Section Formatter.
Variable format_2f : float -> str.

End Formatter.


(** X12: with a non-empty list of sources the answer of
    [generate_response] is made of the sources alone: it is the same for
    every [context] and every [query]; the context enters the answer only
    when the sources are [None] or empty. *)
Theorem generate_response_ignores_context :
  forall (format_2f : float -> str) (context1 context2 query1 query2 : str)
         (sources : option (list SourceInfo.t)),
    (get sources [] <> [] ->
     LLMClient.generate_response format_2f context1 query1 sources
     = LLMClient.generate_response format_2f context2 query2 sources)
    /\ (get sources [] = [] ->
        LLMClient.generate_response format_2f context1 query1 sources
        = Ok (Some (join LLMClient.newline
                      [LLMClient.header;
                       LLMClient.newline ++ context1 ++ LLMClient.newline;
                       LLMClient.footer]))).
Proof.
  intros format_2f context1 context2 query1 query2 sources.
  unfold LLMClient.generate_response. split; intros H.
  - destruct (get sources []); [congruence | reflexivity].
  - rewrite H. reflexivity.
Qed.

Lemma generate_response_ignores_context_witness :
  LLMClient.generate_response Fixtures.format_fixed (py "one") (py "q1")
    (Some [QueryEngine.source_info Samples.round_id Fixtures.hit1])
  = LLMClient.generate_response Fixtures.format_fixed (py "two") (py "q2")
      (Some [QueryEngine.source_info Samples.round_id Fixtures.hit1])
  /\ LLMClient.generate_response Fixtures.format_fixed (py "one") (py "q1")
       None
     = Ok (Some (join LLMClient.newline
                   [LLMClient.header;
                    LLMClient.newline ++ py "one" ++ LLMClient.newline;
                    LLMClient.footer])).
Proof.
  split.
  - apply (proj1 (generate_response_ignores_context Fixtures.format_fixed
                    (py "one") (py "two") (py "q1") (py "q2")
                    (Some [QueryEngine.source_info Samples.round_id
                             Fixtures.hit1]))).
    discriminate.
  - apply (proj2 (generate_response_ignores_context Fixtures.format_fixed
                    (py "one") (py "two") (py "q1") (py "q2") None)).
    reflexivity.
Defined.



(* ================================================================== *)
(** * Further properties of the search client *)
(* ================================================================== *)



(** X15: [search_vectors] lets no exception of the class [Exception] out:
    what it raises was raised by the request or by the decoding of the
    body, and is outside that class (a keyboard interrupt, an exit). *)
Theorem search_vectors_raises_only :
  forall (post : str -> EndeeClient.SearchPayload -> Z
                 -> result EndeeClient.Response)
         (client : EndeeClient.t) (collection_name : str)
         (v : list float) (top_k : Z) (meta : bool) (e : exception),
    EndeeClient.search_vectors post client collection_name v top_k meta
    = Raise e ->
    is_Exception e = false
    /\ (post (EndeeClient.search_url client collection_name)
          (EndeeClient.mkPayload v top_k false) 60 = Raise e
        \/ exists response,
             post (EndeeClient.search_url client collection_name)
               (EndeeClient.mkPayload v top_k false) 60 = Ok response
             /\ EndeeClient.status_code response = 200
             /\ EndeeClient.json response = Raise e).
Proof.
  intros post client collection_name v top_k meta e.
  unfold EndeeClient.search_vectors, try_except, bind.
  destruct (post _ _ _) as [response|e0].
  - destruct (Z.eqb_spec (EndeeClient.status_code response) 200) as [H200|H200];
      cbn [negb]; [|discriminate].
    destruct (EndeeClient.json response) as [[results|items|]|e1] eqn:Hj;
      try discriminate.
    destruct (is_Exception e1) eqn:He1; [discriminate|].
    intros H. rewrite ?He1 in H. injection H as <-.
    split; [exact He1|]. right. exists response. auto.
  - destruct (is_Exception e0) eqn:He0; [discriminate|].
    intros H. rewrite ?He0 in H. injection H as <-.
    split; [exact He0|]. left. reflexivity.
Qed.

Lemma search_vectors_raises_only_witness :
  is_Exception Fixtures.interrupt = false
  /\ ((fun (_ : str) (_ : EndeeClient.SearchPayload) (_ : Z) =>
         @Raise EndeeClient.Response Fixtures.interrupt)
        (EndeeClient.search_url Samples.client Samples.collection)
        (EndeeClient.mkPayload [] 3 false) 60 = Raise Fixtures.interrupt
      \/ exists response,
           (fun (_ : str) (_ : EndeeClient.SearchPayload) (_ : Z) =>
              @Raise EndeeClient.Response Fixtures.interrupt)
             (EndeeClient.search_url Samples.client Samples.collection)
             (EndeeClient.mkPayload [] 3 false) 60 = Ok response
           /\ EndeeClient.status_code response = 200
           /\ EndeeClient.json response = Raise Fixtures.interrupt).
Proof.
  apply (search_vectors_raises_only
           (fun _ _ _ => Raise Fixtures.interrupt)
           Samples.client Samples.collection [] 3 true Fixtures.interrupt).
  reflexivity.
Defined.

(** X16: over [EndeeClient.search_vectors] the orchestrator never reports
    a failed search: whatever the transport does, no outcome of [query]
    has an [error] key. *)
Theorem query_endee_never_reports_error :
  forall (encode : str -> result (list float))
         (post : str -> EndeeClient.SearchPayload -> Z
                 -> result EndeeClient.Response)
         (generate_response :
            str -> str -> list SourceInfo.t -> result (option str))
         (client : EndeeClient.t) (collection_name : str) (top_k : Z)
         (round : float -> Z -> float) (question : str) (verbose : bool)
         (o : QueryOutcome.t),
    QueryEngine.query_endee encode post generate_response client
      collection_name top_k round question verbose = Ok o ->
    QueryOutcome.error o = None.
Proof.
  intros encode post generate_response client collection_name top_k round
    question verbose o H.
  unfold QueryEngine.query_endee in H.
  destruct (query_returns _ _ _ _ _ _ _ _ _ H)
    as [v [_ [[e [Hs [He _]]] | [[_ ->] | [results [answer [_ [_ [_ Ho]]]]]]]]].
  - apply search_vectors_raises in Hs. congruence.
  - reflexivity.
  - destruct Ho as [[_ ->] | [_ ->]]; reflexivity.
Qed.

Lemma query_endee_never_reports_error_witness :
  QueryOutcome.error
    (QueryOutcome.mk Samples.question QueryEngine.no_results_answer
       (Some []) None None) = None.
Proof.
  apply (query_endee_never_reports_error Samples.encode_ok
           Samples.post_refused Samples.generate_fixed Samples.client
           Samples.collection 3 Samples.round_id Samples.question true).
  reflexivity.
Defined.

(* ================================================================== *)
(** * The other methods of the store client *)
(* ================================================================== *)

Section StripChars.
Lemma lstrip_chars_repeat (c : N) (n : nat) (s : str) :
  lstrip_chars [c] (repeat c n ++ s) = lstrip_chars [c] s.
Proof.
  induction n as [|n IH]; [reflexivity|].
  cbn [repeat app lstrip_chars existsb]. rewrite N.eqb_refl. exact IH.
Qed.

(** What [lstrip_chars] removes is a run of the character, and what it
    leaves does not start with it. *)
Lemma lstrip_chars_spec (c : N) (s : str) :
  exists n,
    s = repeat c n ++ lstrip_chars [c] s
    /\ forall rest, lstrip_chars [c] s <> c :: rest.
Proof.
  induction s as [|d s [n [Hs Hrest]]].
  - exists 0%nat. split; [reflexivity | discriminate].
  - cbn [lstrip_chars existsb]. destruct (N.eqb_spec d c) as [->|Hdc].
    + cbn [orb]. exists (S n). split; [|exact Hrest].
      cbn [repeat app]. f_equal. exact Hs.
    + cbn [orb]. exists 0%nat. split; [reflexivity|].
      intros rest H. injection H as H _. contradiction.
Qed.
End StripChars.

(** X17: the base address a client keeps is the address it was given
    without its trailing slashes: it never ends with a slash, and clients
    made from addresses that differ only in trailing slashes are the
    same. *)
Theorem client_base_url_has_no_trailing_slash :
  forall (base_url : str),
    (exists n,
       base_url
       = EndeeClient.base_url (EndeeClientIO.__init__ base_url)
           ++ repeat 47%N n)
    /\ (forall front,
          EndeeClient.base_url (EndeeClientIO.__init__ base_url)
          <> front ++ [47%N])
    /\ (forall n,
          EndeeClientIO.__init__ (base_url ++ repeat 47%N n)
          = EndeeClientIO.__init__ base_url).
Proof.
  intros base_url. unfold EndeeClientIO.__init__, rstrip_chars.
  cbn [EndeeClient.base_url]. change (py "/") with [47%N].
  destruct (lstrip_chars_spec 47%N (rev base_url)) as [n [Hn Hrest]].
  split; [|split].
  - exists n. rewrite <- (rev_involutive base_url) at 1.
    rewrite Hn at 1. rewrite rev_app_distr, rev_repeat. reflexivity.
  - intros front H. apply (f_equal (@rev N)) in H.
    rewrite rev_involutive, rev_app_distr in H. simpl in H.
    exact (Hrest _ H).
  - intros k. rewrite rev_app_distr, rev_repeat, lstrip_chars_repeat.
    reflexivity.
Qed.

Section ClientCalls.
Context {W : Type}.
Variable get : str -> Z -> W -> W * result EndeeClient.Response.
Variable post_create :
  str -> EndeeClientIO.CreatePayload -> Z -> W
  -> W * result EndeeClient.Response.
Variable post_insert :
  str -> list EndeeClientIO.FormattedVector -> Z -> W
  -> W * result EndeeClient.Response.
Variable http_error_message : EndeeClient.Response -> str.
Variable self : EndeeClient.t.

(** What [insert_vectors] does with the answer of the request. *)
Lemma insert_vectors_cases (collection_name : str) (vectors : list Vector.t)
    (w : W) :
  let request :=
    post_insert
      (EndeeClient.base_url self ++ py "/api/v1/index/" ++ collection_name
         ++ py "/vector/insert")
      (map EndeeClientIO.format_vector vectors) 30 w in
  fst (EndeeClientIO.insert_vectors post_insert http_error_message self
         collection_name vectors w) = fst request
  /\ match snd request,
           snd (EndeeClientIO.insert_vectors post_insert http_error_message
                  self collection_name vectors w) with
     | Ok response, Returned _ =>
         EndeeClientIO.is_http_error response = false
     | Ok response, Raised r =>
         EndeeClientIO.is_http_error response = true
         /\ r = PlainException (py "Failed to insert vectors: "
                                  ++ http_error_message response)
     | Raise e, Returned _ => False
     | Raise e, Raised r =>
         if EndeeClientIO.is_RequestException e
         then r = PlainException (py "Failed to insert vectors: "
                                    ++ str_of_exception e)
         else r = Passed e
     end.
Proof.
  cbv zeta. unfold EndeeClientIO.insert_vectors.
  destruct (post_insert _ _ _ _) as [w' [response|e]]; cbn [fst snd].
  - destruct (EndeeClientIO.is_http_error response) eqn:Herr; cbn [fst snd].
    + split; [reflexivity|]. split; reflexivity.
    + destruct (EndeeClient.status_code response =? 200)%Z.
      * destruct (falsy (strip (EndeeClient.text response)));
          [split; reflexivity|].
        destruct (EndeeClient.json response); split; reflexivity.
      * split; reflexivity.
  - destruct (EndeeClientIO.is_RequestException e) eqn:He; cbn [fst snd];
      (split; [reflexivity|]); rewrite ?He; reflexivity.
Qed.
End ClientCalls.

(** X18: [health_check] answers [True] exactly when the store answered the
    request with status 200; an exception of [requests] is answered with
    [False], and any other exception passes through unchanged. *)
Theorem health_check_outcomes :
  forall (W : Type) (get : str -> Z -> W -> W * result EndeeClient.Response)
         (self : EndeeClient.t) (w : W),
    fst (EndeeClientIO.health_check get self w)
    = fst (get (EndeeClient.base_url self ++ py "/health") 5 w)
    /\ (snd (EndeeClientIO.health_check get self w) = Returned true
        <-> exists response,
              snd (get (EndeeClient.base_url self ++ py "/health") 5 w)
              = Ok response
              /\ EndeeClient.status_code response = 200)
    /\ (forall e,
          snd (get (EndeeClient.base_url self ++ py "/health") 5 w) = Raise e ->
          snd (EndeeClientIO.health_check get self w)
          = if EndeeClientIO.is_RequestException e then Returned false
            else Raised (Passed e)).
Proof.
  intros W get self w. unfold EndeeClientIO.health_check.
  destruct (get _ _ _) as [w' [response|e]]; cbn [fst snd].
  - split; [reflexivity|]. split; [|discriminate].
    destruct (Z.eqb_spec (EndeeClient.status_code response) 200) as [H|H].
    + split; [intros _; exists response; auto | reflexivity].
    + split; [discriminate|]. intros [r [Hr Hs]]. injection Hr as <-.
      contradiction.
  - destruct (EndeeClientIO.is_RequestException e) eqn:He; cbn [fst snd].
    + split; [reflexivity|]. split.
      * split; [discriminate | intros [r [Hr _]]; discriminate Hr].
      * intros e' H. injection H as <-. rewrite He. reflexivity.
    + split; [reflexivity|]. split.
      * split; [discriminate | intros [r [Hr _]]; discriminate Hr].
      * intros e' H. injection H as <-. rewrite He. reflexivity.
Qed.

(** X19: [create_collection] takes the status 409 for success: it returns
    the dict that says the index exists.  Any other status from 400 to 599
    and any exception of [requests] become a plain [Exception] whose
    message starts with [Failed to create index: ]; what it raises
    otherwise is no exception of [requests]. *)
Theorem create_collection_outcomes :
  forall (W : Type)
         (post_create : str -> EndeeClientIO.CreatePayload -> Z -> W
                        -> W * result EndeeClient.Response)
         (http_error_message : EndeeClient.Response -> str)
         (self : EndeeClient.t) (name : str) (dimension : Z) (w : W),
    (forall w' response,
        post_create (EndeeClient.base_url self ++ py "/api/v1/index/create")
          (EndeeClientIO.mkCreatePayload name dimension (py "cosine")) 10 w
        = (w', Ok response) ->
        EndeeClient.status_code response = 409 ->
        EndeeClientIO.create_collection post_create http_error_message self
          name dimension w
        = (w', Returned (EndeeClientIO.AlreadyExists name)))
    /\ (forall w' r,
          EndeeClientIO.create_collection post_create http_error_message self
            name dimension w
          = (w', Raised r) ->
          (exists cause,
             r = PlainException (py "Failed to create index: " ++ cause))
          \/ (exists e,
                r = Passed e /\ EndeeClientIO.is_RequestException e = false)).
Proof.
  intros W post_create http_error_message self name dimension w.
  unfold EndeeClientIO.create_collection. split.
  - intros w' response Hp Hs. rewrite Hp.
    unfold EndeeClientIO.is_http_error. rewrite Hs. reflexivity.
  - intros w' r.
    destruct (post_create _ _ _ _) as [w1 [response|e]].
    + destruct (EndeeClientIO.is_http_error response).
      * destruct (EndeeClient.status_code response =? 409)%Z;
          [discriminate|].
        intros H. injection H as _ <-. left. eexists. reflexivity.
      * destruct (EndeeClient.json response); discriminate.
    + destruct (EndeeClientIO.is_RequestException e) eqn:He;
        intros H; injection H as _ <-.
      * left. eexists. reflexivity.
      * right. exists e. auto.
Qed.

Lemma create_collection_outcomes_witness :
  EndeeClientIO.create_collection
    (fun _ _ _ (w : nat) =>
       (S w, Ok (EndeeClient.mkResponse 409 [] (Raise Samples.connection_refused))))
    (fun _ => py "409 Client Error")
    Samples.client Samples.collection 384 0%nat
  = (1%nat, Returned (EndeeClientIO.AlreadyExists Samples.collection)).
Proof.
  apply (proj1 (create_collection_outcomes nat
                  (fun _ _ _ (w : nat) =>
                     (S w, Ok (EndeeClient.mkResponse 409 []
                                 (Raise Samples.connection_refused))))
                  (fun _ => py "409 Client Error")
                  Samples.client Samples.collection 384 0%nat)
           1%nat
           (EndeeClient.mkResponse 409 [] (Raise Samples.connection_refused))).
  - reflexivity.
  - reflexivity.
Defined.

(** X20: [insert_vectors] returns exactly when the request was answered
    with a status outside 400 to 599 (also one that is not 200); a status
    from 400 to 599 and any exception of [requests] become a plain
    [Exception] whose message starts with [Failed to insert vectors: ];
    the world is left as the request left it. *)
Theorem insert_vectors_outcomes :
  forall (W : Type)
         (post_insert : str -> list EndeeClientIO.FormattedVector -> Z -> W
                        -> W * result EndeeClient.Response)
         (http_error_message : EndeeClient.Response -> str)
         (self : EndeeClient.t) (collection_name : str)
         (vectors : list Vector.t) (w : W),
    fst (EndeeClientIO.insert_vectors post_insert http_error_message self
           collection_name vectors w)
    = fst (post_insert
             (EndeeClient.base_url self ++ py "/api/v1/index/"
                ++ collection_name ++ py "/vector/insert")
             (map EndeeClientIO.format_vector vectors) 30 w)
    /\ ((exists value,
           snd (EndeeClientIO.insert_vectors post_insert http_error_message
                  self collection_name vectors w) = Returned value)
        <-> exists response,
              snd (post_insert
                     (EndeeClient.base_url self ++ py "/api/v1/index/"
                        ++ collection_name ++ py "/vector/insert")
                     (map EndeeClientIO.format_vector vectors) 30 w)
              = Ok response
              /\ (EndeeClient.status_code response < 400
                  \/ 600 <= EndeeClient.status_code response))
    /\ (forall r,
          snd (EndeeClientIO.insert_vectors post_insert http_error_message
                 self collection_name vectors w) = Raised r ->
          (exists cause,
             r = PlainException (py "Failed to insert vectors: " ++ cause))
          \/ (exists e,
                r = Passed e /\ EndeeClientIO.is_RequestException e = false)).
Proof.
  intros W post_insert http_error_message self collection_name vectors w.
  pose proof (insert_vectors_cases post_insert http_error_message self
                collection_name vectors w) as H.
  cbv zeta in H. destruct H as [Hw H]. split; [exact Hw|].
  destruct (snd (post_insert _ _ _ _)) as [response|e];
    destruct (snd (EndeeClientIO.insert_vectors _ _ _ _ _ _)) as [value|r].
  - split.
    + split; [|intros _; eexists; reflexivity].
      intros _. exists response. split; [reflexivity|].
      unfold EndeeClientIO.is_http_error in H.
      apply andb_false_iff in H. destruct H as [H|H].
      * apply Z.leb_gt in H. left. exact H.
      * apply Z.ltb_ge in H. right. exact H.
    + discriminate.
  - destruct H as [Herr ->]. split.
    + split; [intros [value H]; discriminate H|].
      intros [r [Hr Hs]]. injection Hr as <-.
      unfold EndeeClientIO.is_http_error in Herr.
      apply andb_true_iff in Herr. destruct Herr as [H1 H2].
      apply Z.leb_le in H1. apply Z.ltb_lt in H2. lia.
    + intros r H. injection H as <-. left. eexists. reflexivity.
  - contradiction.
  - split.
    + split; [intros [value Hv]; discriminate Hv|].
      intros [response [Hr _]]. discriminate Hr.
    + intros r' Hr'. injection Hr' as <-.
      destruct (EndeeClientIO.is_RequestException e) eqn:He.
      * left. rewrite H. eexists. reflexivity.
      * right. exists e. auto.
Qed.

(** X21: of the metadata of a vector, [insert_vectors] sends the chunk
    text and the source file only: vectors that differ in nothing but
    [chunk_id], [timestamp] and [total_chunks] lead to the same request,
    the same result and the same world. *)
Theorem insert_vectors_drops_metadata :
  forall (W : Type)
         (post_insert : str -> list EndeeClientIO.FormattedVector -> Z -> W
                        -> W * result EndeeClient.Response)
         (http_error_message : EndeeClient.Response -> str)
         (self : EndeeClient.t) (collection_name : str)
         (vectors : list Vector.t)
         (edit : VectorMetadata.t -> Z * str * Z) (w : W),
    EndeeClientIO.insert_vectors post_insert http_error_message self
      collection_name
      (map (fun vec =>
              let m := Vector.metadata vec in
              let '(chunk_id, timestamp, total_chunks) := edit m in
              Vector.mk (Vector.id vec) (Vector.vector vec)
                (VectorMetadata.mk (VectorMetadata.source_file m) chunk_id
                   (VectorMetadata.chunk_text m) timestamp total_chunks))
           vectors) w
    = EndeeClientIO.insert_vectors post_insert http_error_message self
        collection_name vectors w.
Proof.
  intros W post_insert http_error_message self collection_name vectors edit w.
  unfold EndeeClientIO.insert_vectors. rewrite map_map.
  rewrite (map_ext _ EndeeClientIO.format_vector); [reflexivity|].
  intros vec. cbv zeta. destruct (edit (Vector.metadata vec)) as [[c t] n].
  reflexivity.
Qed.

(* ================================================================== *)
(** * The embedding model *)
(* ================================================================== *)

(** X22: the model is loaded on the first use and kept: after a call of
    [encode] that returned, the object holds a model, and every later
    call of [encode] on it goes straight to that model, without another
    call of the constructor. *)
Theorem embedding_model_loaded_once :
  forall (W Model : Type)
         (SentenceTransformer : str -> W -> W * result Model)
         (model_encode : Model -> str -> W -> W * result (list float))
         (self self' : EmbeddingModel.t) (text : str) (w w' : W)
         (embedding : list float),
    EmbeddingModel.encode SentenceTransformer model_encode self text w
    = (self', w', Ok embedding) ->
    exists model,
      EmbeddingModel._model self' = Some model
      /\ EmbeddingModel.model_name self' = EmbeddingModel.model_name self
      /\ forall text2 w2,
           EmbeddingModel.encode SentenceTransformer model_encode self'
             text2 w2
           = (self', fst (model_encode model text2 w2),
              snd (model_encode model text2 w2)).
Proof.
  intros W Model SentenceTransformer model_encode self self' text w w'
    embedding H.
  unfold EmbeddingModel.encode, EmbeddingModel._load_model in H.
  assert (Hlater : forall model,
    EmbeddingModel._model self' = Some model ->
    forall text2 w2,
      EmbeddingModel.encode SentenceTransformer model_encode self' text2 w2
      = (self', fst (model_encode model text2 w2),
         snd (model_encode model text2 w2))).
  { intros model Hm text2 w2.
    unfold EmbeddingModel.encode, EmbeddingModel._load_model. rewrite Hm.
    destruct (model_encode model text2 w2); reflexivity. }
  destruct (EmbeddingModel._model self) as [model|] eqn:Hself.
  - destruct (model_encode model text w) as [w1 r].
    injection H as <- _ _. exists model. auto.
  - destruct (SentenceTransformer _ w) as [w1 [model|e]]; [|discriminate H].
    destruct (model_encode model text w1) as [w2 r].
    injection H as <- _ _. exists model.
    split; [reflexivity|]. split; [reflexivity|].
    apply Hlater. reflexivity.
Qed.

Lemma embedding_model_loaded_once_witness :
  exists model : nat,
    EmbeddingModel._model Fixtures.loaded_model = Some model
    /\ EmbeddingModel.model_name Fixtures.loaded_model
       = EmbeddingModel.model_name Fixtures.fresh_model
    /\ forall text2 w2,
         EmbeddingModel.encode Fixtures.loader Fixtures.encoder
           Fixtures.loaded_model text2 w2
         = (Fixtures.loaded_model,
            fst (Fixtures.encoder model text2 w2),
            snd (Fixtures.encoder model text2 w2)).
Proof.
  apply (embedding_model_loaded_once nat nat Fixtures.loader
           Fixtures.encoder Fixtures.fresh_model Fixtures.loaded_model
           (py "hello") 0%nat 2%nat [0.5%float]).
  reflexivity.
Defined.

(** X23: [encode_batch] on an empty list of texts returns the empty list
    without asking the model for any embedding, but only after the model
    is loaded: on a fresh object it calls the constructor, and raises what
    the constructor raises. *)
Theorem encode_batch_of_nothing :
  forall (W Model : Type)
         (SentenceTransformer : str -> W -> W * result Model)
         (model_encode_batch :
            Model -> list str -> Z -> bool -> W
            -> W * result (list (list float)))
         (model_name : str) (batch_size : Z) (w : W),
    EmbeddingModel.encode_batch SentenceTransformer model_encode_batch
      (EmbeddingModel.__init__ model_name) [] batch_size w
    = match SentenceTransformer model_name w with
      | (w', Ok model) =>
          (EmbeddingModel.mk model_name (Some model), w', Ok [])
      | (w', Raise e) => (EmbeddingModel.__init__ model_name, w', Raise e)
      end.
Proof.
  intros W Model SentenceTransformer model_encode_batch model_name
    batch_size w.
  unfold EmbeddingModel.encode_batch, EmbeddingModel._load_model,
    EmbeddingModel.__init__.
  cbn [EmbeddingModel._model EmbeddingModel.model_name].
  destruct (SentenceTransformer model_name w) as [w' [model|e]]; reflexivity.
Qed.

(* ================================================================== *)
(** * Ingestion: vectors and batches *)
(* ================================================================== *)

Section Batches.
Context {A : Type}.

(** Consecutive runs of [b] elements from position [s] on make up the
    list from [s] on. *)
Lemma concat_runs (b : nat) (l : list A) (m s : nat) :
  (length l - s <= m * b)%nat ->
  concat (map (fun k => firstn b (skipn (s + k * b) l)) (seq 0 m))
  = skipn s l.
Proof.
  revert s. induction m as [|m IH]; intros s Hm.
  - simpl. rewrite skipn_all2 by lia. reflexivity.
  - cbn [seq map concat]. rewrite <- seq_shift, map_map.
    rewrite (map_ext _ (fun k => firstn b (skipn ((s + b) + k * b) l)))
      by (intros k; do 2 f_equal; lia).
    rewrite IH by lia.
    replace (s + 0 * b)%nat with s by lia.
    replace (s + b)%nat with (b + s)%nat by lia.
    rewrite <- skipn_skipn. apply firstn_skipn.
Qed.

(** A slice of [len] elements that starts inside the list. *)
Lemma py_slice_run (l : list A) (a len : Z) :
  0 <= a <= Z.of_nat (length l) -> 0 <= len ->
  py_slice l a (a + len) = firstn (Z.to_nat len) (skipn (Z.to_nat a) l).
Proof.
  intros Ha Hlen.
  destruct (Z_le_gt_dec (a + len) (Z.of_nat (length l))) as [Hin|Hout].
  - rewrite py_slice_inside by lia. f_equal. lia.
  - unfold py_slice, adjust_index.
    destruct (Z.ltb_spec a 0); [lia|].
    destruct (Z.ltb_spec (Z.of_nat (length l)) a); [lia|].
    destruct (Z.ltb_spec (a + len) 0); [lia|].
    destruct (Z.ltb_spec (Z.of_nat (length l)) (a + len)); [|lia].
    rewrite !firstn_all2; [reflexivity | |]; rewrite length_skipn; lia.
Qed.

Lemma py_range_from_zero (n b : Z) :
  0 < b -> 0 <= n ->
  exists m : nat,
    py_range 0 n b = map (fun k => Z.of_nat k * b) (seq 0 m)
    /\ n <= Z.of_nat m * b
    /\ Z.of_nat m * b < n + b.
Proof.
  intros Hb Hn. unfold py_range.
  destruct (Z.ltb_spec 0 n) as [Hpos|Hzero].
  - exists (Z.to_nat ((n - 0 - 1) / b + 1)).
    split; [apply map_ext; intros k; lia|].
    pose proof (Z.div_mod (n - 0 - 1) b ltac:(lia)) as Hdm.
    pose proof (Z.mod_pos_bound (n - 0 - 1) b Hb) as Hm.
    assert (0 <= (n - 0 - 1) / b) by (apply Z.div_pos; lia).
    rewrite Z2Nat.id by lia. nia.
  - exists 0%nat. split; [reflexivity|]. lia.
Qed.
End Batches.

Lemma batches_partition_aux :
  forall (batch_size : Z) (vectors : list Vector.t),
    0 < batch_size ->
    concat (Main.batches batch_size vectors) = vectors
    /\ Forall (fun batch => 1 <= Z.of_nat (length batch) <= batch_size)
              (Main.batches batch_size vectors)
    /\ Z.of_nat (length vectors)
       <= Z.of_nat (length (Main.batches batch_size vectors)) * batch_size
    /\ Z.of_nat (length (Main.batches batch_size vectors)) * batch_size
       < Z.of_nat (length vectors) + batch_size.
Proof.
  intros batch_size vectors Hb. unfold Main.batches.
  destruct (py_range_from_zero (Z.of_nat (length vectors)) batch_size Hb
              ltac:(lia)) as [m [-> [Hlo Hhi]]].
  rewrite map_map, length_map, length_seq.
  assert (Hslice : forall k, In k (seq 0 m) ->
    py_slice vectors (Z.of_nat k * batch_size)
      (Z.of_nat k * batch_size + batch_size)
    = firstn (Z.to_nat batch_size)
        (skipn (0 + k * Z.to_nat batch_size) vectors)).
  { intros k Hk. apply in_seq in Hk. rewrite py_slice_run by nia.
    do 2 f_equal. nia. }
  split; [|split; [|split; assumption]].
  - rewrite (map_ext_in _ _ _ Hslice).
    rewrite concat_runs; [reflexivity | nia].
  - apply Forall_forall. intros batch Hin. apply in_map_iff in Hin.
    destruct Hin as [k [<- Hk]]. rewrite (Hslice k Hk).
    apply in_seq in Hk. rewrite length_firstn, length_skipn. nia.
Qed.


(** X24: the batches of [ingest_documents] cut the list of vectors into
    consecutive pieces: put one after the other they give the list back,
    no batch is empty, none has more than [batch_size] vectors, and there
    are [ceil (len / batch_size)] of them. *)
Theorem batches_partition :
  forall (batch_size : Z) (vectors : list Vector.t),
    0 < batch_size ->
    concat (Main.batches batch_size vectors) = vectors
    /\ Forall (fun batch => 1 <= Z.of_nat (length batch) <= batch_size)
              (Main.batches batch_size vectors)
    /\ Z.of_nat (length vectors)
       <= Z.of_nat (length (Main.batches batch_size vectors)) * batch_size
    /\ Z.of_nat (length (Main.batches batch_size vectors)) * batch_size
       < Z.of_nat (length vectors) + batch_size.
Proof. intros. apply batches_partition_aux; assumption. Qed.

Lemma batches_partition_witness :
  concat (Main.batches 2 Fixtures.three_vectors) = Fixtures.three_vectors
  /\ Forall (fun batch => 1 <= Z.of_nat (length batch) <= 2)
            (Main.batches 2 Fixtures.three_vectors)
  /\ Z.of_nat (length Fixtures.three_vectors)
     <= Z.of_nat (length (Main.batches 2 Fixtures.three_vectors)) * 2
  /\ Z.of_nat (length (Main.batches 2 Fixtures.three_vectors)) * 2
     < Z.of_nat (length Fixtures.three_vectors) + 2.
Proof. apply (batches_partition 2 Fixtures.three_vectors). reflexivity. Defined.

Section PrepareVectors.
Context {W : Type}.
Variable now_isoformat : W -> W * str.

Lemma prepare_vectors_acc (pairs : list (ChunkInfo.t * list float)) :
  forall (vectors : list Vector.t) (w : W),
    exists made,
      snd (Main.prepare_vectors now_isoformat pairs vectors w)
      = vectors ++ made
      /\ map Vector.id made = map (fun p => Main.vector_id (fst p)) pairs
      /\ map Vector.vector made = map snd pairs
      /\ map (fun vec => VectorMetadata.chunk_text (Vector.metadata vec)) made
         = map (fun p => ChunkInfo.chunk_text (fst p)) pairs
      /\ map (fun vec => VectorMetadata.source_file (Vector.metadata vec)) made
         = map (fun p => ChunkInfo.filename (fst p)) pairs.
Proof.
  induction pairs as [|[chunk embedding] rest IH]; intros vectors w.
  - exists []. rewrite app_nil_r. repeat split; reflexivity.
  - cbn [Main.prepare_vectors]. destruct (now_isoformat w) as [w' timestamp].
    destruct (IH (vectors ++ [Main.vector_obj chunk embedding timestamp]) w')
      as [made [Hmade [Hid [Hvec [Htext Hfile]]]]].
    exists (Main.vector_obj chunk embedding timestamp :: made).
    rewrite Hmade, <- app_assoc. cbn [map fst snd].
    rewrite Hid, Hvec, Htext, Hfile. repeat split; reflexivity.
Qed.
End PrepareVectors.

(** X25: [ingest_documents] builds one vector per pair of
    [zip(chunks, embeddings)], in order: as many as the shorter of the two
    lists, so chunks for which the embedder gave no embedding are left out
    without an error; the vector at a position carries the id, the text
    and the file name of the chunk at that position and the embedding at
    that position. *)
Theorem prepare_vectors_follow_zip :
  forall (W : Type) (now_isoformat : W -> W * str)
         (chunks : list ChunkInfo.t) (embeddings : list (list float)) (w : W),
    let vectors :=
      snd (Main.prepare_vectors now_isoformat (combine chunks embeddings)
             [] w) in
    length vectors = Nat.min (length chunks) (length embeddings)
    /\ map Vector.id vectors
       = map Main.vector_id (firstn (length embeddings) chunks)
    /\ map Vector.vector vectors = firstn (length chunks) embeddings
    /\ map (fun vec => VectorMetadata.chunk_text (Vector.metadata vec)) vectors
       = map ChunkInfo.chunk_text (firstn (length embeddings) chunks)
    /\ map (fun vec => VectorMetadata.source_file (Vector.metadata vec))
           vectors
       = map ChunkInfo.filename (firstn (length embeddings) chunks).
Proof.
  intros W now_isoformat chunks embeddings w. cbv zeta.
  destruct (prepare_vectors_acc now_isoformat (combine chunks embeddings) [] w)
    as [made [-> [Hid [Hvec [Htext Hfile]]]]].
  cbn [app].
  assert (Hfst : map fst (combine chunks embeddings)
                 = firstn (length embeddings) chunks).
  { clear. revert embeddings.
    induction chunks as [|c chunks IH]; intros [|e embeddings];
      cbn [combine map firstn length]; try reflexivity.
    - f_equal. apply IH. }
  assert (Hsnd : map snd (combine chunks embeddings)
                 = firstn (length chunks) embeddings).
  { clear. revert embeddings.
    induction chunks as [|c chunks IH]; intros [|e embeddings];
      cbn [combine map firstn length]; try reflexivity.
    - f_equal. apply IH. }
  split; [|split; [|split; [|split]]].
  - rewrite <- (length_map Vector.id), Hid, length_map. apply length_combine.
  - rewrite Hid, <- Hfst, map_map. reflexivity.
  - rewrite Hvec. exact Hsnd.
  - rewrite Htext, <- Hfst, map_map. reflexivity.
  - rewrite Hfile, <- Hfst, map_map. reflexivity.
Qed.

(* ================================================================== *)
(** * Ingestion: the insertion loop and the whole run *)
(* ================================================================== *)

Section InsertLoop.
Context {W : Type}.
Variable config : Main.Config.
Variable post_insert :
  str -> list EndeeClientIO.FormattedVector -> Z -> W
  -> W * result EndeeClient.Response.
Variable http_error_message : EndeeClient.Response -> str.
Variable client : EndeeClient.t.

(** The number of vectors in a list of batches. *)
Lemma insert_batches_bounds (todo : list (list Vector.t)) :
  forall (total : Z) (w w' : W) (n : Z),
    Main.insert_batches config post_insert http_error_message client todo
      total w = (w', Returned n) ->
    total <= n <= total + Z.of_nat (length (concat todo)).
Proof.
  induction todo as [|batch rest IH]; intros total w w' n H;
    cbn [Main.insert_batches] in H.
  - injection H as _ <-. simpl. lia.
  - cbn [concat]. rewrite length_app.
    destruct (EndeeClientIO.insert_vectors _ _ _ _ _ _) as [w1 [value|r]].
    + apply IH in H. lia.
    + destruct (caught r); [|discriminate H]. apply IH in H. lia.
Qed.

(** When the store answers every request with a status from 400 to 599,
    no batch is counted. *)
Lemma insert_batches_all_refused (todo : list (list Vector.t)) :
  (forall url body timeout w,
      exists response,
        snd (post_insert url body timeout w) = Ok response
        /\ EndeeClientIO.is_http_error response = true) ->
  forall (total : Z) (w : W),
    snd (Main.insert_batches config post_insert http_error_message client
           todo total w) = Returned total.
Proof.
  intros Hpost. induction todo as [|batch rest IH]; intros total w;
    cbn [Main.insert_batches]; [reflexivity|].
  unfold EndeeClientIO.insert_vectors.
  destruct (Hpost
              (EndeeClient.base_url client ++ py "/api/v1/index/"
                 ++ Main.COLLECTION_NAME config ++ py "/vector/insert")
              (map EndeeClientIO.format_vector batch) 30 w)
    as [response [Hr Herr]].
  destruct (post_insert _ _ _ _) as [w1 r]. cbn [snd] in Hr. subst r.
  rewrite Herr. cbn [caught]. apply IH.
Qed.

(** When the store answers every request with a status outside 400 to
    599, every batch is counted. *)
Lemma insert_batches_all_accepted (todo : list (list Vector.t)) :
  (forall url body timeout w,
      exists response,
        snd (post_insert url body timeout w) = Ok response
        /\ EndeeClientIO.is_http_error response = false) ->
  forall (total : Z) (w : W),
    snd (Main.insert_batches config post_insert http_error_message client
           todo total w)
    = Returned (total + Z.of_nat (length (concat todo))).
Proof.
  intros Hpost. induction todo as [|batch rest IH]; intros total w;
    cbn [Main.insert_batches].
  - simpl. f_equal. lia.
  - pose proof (insert_vectors_cases post_insert http_error_message client
                  (Main.COLLECTION_NAME config) batch w) as Hc.
    cbv zeta in Hc. destruct Hc as [_ Hc].
    destruct (Hpost
                (EndeeClient.base_url client ++ py "/api/v1/index/"
                   ++ Main.COLLECTION_NAME config ++ py "/vector/insert")
                (map EndeeClientIO.format_vector batch) 30 w)
      as [response [Hr Herr]].
    rewrite Hr in Hc.
    destruct (EndeeClientIO.insert_vectors _ _ _ _ _ _) as [w1 [value|r]];
      cbn [snd] in Hc.
    + rewrite IH. cbn [concat]. rewrite length_app. f_equal. lia.
    + destruct Hc as [Hc _]. congruence.
Qed.
End InsertLoop.

(** X26: the loop that inserts the batches goes on after a batch has
    failed, and counts the vectors of the batches that went through: if
    the store refuses every request (a status from 400 to 599), the loop
    still returns, with a count of 0; if it accepts every request, the
    count is the number of vectors. *)
Theorem insert_batches_counts :
  forall (W : Type) (config : Main.Config)
         (post_insert : str -> list EndeeClientIO.FormattedVector -> Z -> W
                        -> W * result EndeeClient.Response)
         (http_error_message : EndeeClient.Response -> str)
         (client : EndeeClient.t) (vectors : list Vector.t) (w : W),
    ((forall url body timeout w0,
         exists response,
           snd (post_insert url body timeout w0) = Ok response
           /\ EndeeClientIO.is_http_error response = true) ->
     snd (Main.insert_batches config post_insert http_error_message client
            (Main.batches 100 vectors) 0 w) = Returned 0)
    /\ ((forall url body timeout w0,
           exists response,
             snd (post_insert url body timeout w0) = Ok response
             /\ EndeeClientIO.is_http_error response = false) ->
        snd (Main.insert_batches config post_insert http_error_message client
               (Main.batches 100 vectors) 0 w)
        = Returned (Z.of_nat (length vectors))).
Proof.
  intros W config post_insert http_error_message client vectors w. split.
  - intros H. apply insert_batches_all_refused, H.
  - intros H. rewrite insert_batches_all_accepted by exact H.
    destruct (batches_partition_aux 100 vectors ltac:(lia)) as [-> _].
    reflexivity.
Qed.

Lemma insert_batches_counts_witness :
  snd (Main.insert_batches Fixtures.config (Fixtures.post_insert_with 500)
         Fixtures.error_message Samples.client
         (Main.batches 100 Fixtures.three_vectors) 0 0%nat) = Returned 0
  /\ snd (Main.insert_batches Fixtures.config (Fixtures.post_insert_with 204)
            Fixtures.error_message Samples.client
            (Main.batches 100 Fixtures.three_vectors) 0 0%nat) = Returned 3.
Proof.
  split.
  - apply (proj1 (insert_batches_counts nat Fixtures.config
                    (Fixtures.post_insert_with 500) Fixtures.error_message
                    Samples.client Fixtures.three_vectors 0%nat)).
    intros url body timeout w0. eexists. split; reflexivity.
  - apply (proj2 (insert_batches_counts nat Fixtures.config
                    (Fixtures.post_insert_with 204) Fixtures.error_message
                    Samples.client Fixtures.three_vectors 0%nat)).
    intros url body timeout w0. eexists. split; reflexivity.
Defined.

Section IngestRun.
Context {W Model : Type}.
Variable config : Main.Config.
Variable get : str -> Z -> W -> W * result EndeeClient.Response.
Variable post_create :
  str -> EndeeClientIO.CreatePayload -> Z -> W
  -> W * result EndeeClient.Response.
Variable post_insert :
  str -> list EndeeClientIO.FormattedVector -> Z -> W
  -> W * result EndeeClient.Response.
Variable http_error_message : EndeeClient.Response -> str.
Variable SentenceTransformer : str -> W -> W * result Model.
Variable model_encode_batch :
  Model -> list str -> Z -> bool -> W -> W * result (list (list float)).
Variable load_directory : str -> io W (list (str * str)).
Variable now_isoformat : W -> W * str.

(** The path of a run of [ingest_documents] up to the chunks. *)
Lemma ingest_documents_to_chunks (fuel : nat) (directory : str)
    (w w1 w2 w3 : W) (created : EndeeClientIO.create_result)
    (documents : list (str * str)) (chunks : list ChunkInfo.t) :
  EndeeClientIO.health_check get
    (EndeeClientIO.__init__ (Main.ENDEE_URL config)) w
  = (w1, Returned true) ->
  EndeeClientIO.create_collection post_create http_error_message
    (EndeeClientIO.__init__ (Main.ENDEE_URL config))
    (Main.COLLECTION_NAME config) (Main.EMBEDDING_DIMENSION config) w1
  = (w2, Returned created) ->
  load_directory directory w2 = (w3, Returned documents) ->
  documents <> [] ->
  TextChunker.chunk_documents fuel
    (TextChunker.mk (Main.CHUNK_SIZE config) (Main.CHUNK_OVERLAP config))
    documents = Some chunks ->
  Main.ingest_documents config get post_create post_insert
    http_error_message SentenceTransformer model_encode_batch
    load_directory now_isoformat fuel directory w
  = match EmbeddingModel.encode_batch SentenceTransformer model_encode_batch
            (EmbeddingModel.__init__ (Main.EMBEDDING_MODEL config))
            (map ChunkInfo.chunk_text chunks) 32 w3 with
    | (_, w4, Raise e) => Some (w4, Raised (Passed e))
    | (_, w4, Ok embeddings) =>
        let (w5, vectors) :=
          Main.prepare_vectors now_isoformat (combine chunks embeddings)
            [] w4 in
        match Main.insert_batches config post_insert http_error_message
                (EndeeClientIO.__init__ (Main.ENDEE_URL config))
                (Main.batches 100 vectors) 0 w5 with
        | (w6, Raised r) => Some (w6, Raised r)
        | (w6, Returned total_inserted) =>
            Some (w6, Returned (Main.IngestionComplete total_inserted))
        end
    end.
Proof.
  intros Hh Hc Hl Hne Hk. unfold Main.ingest_documents.
  cbn [TextChunker.__init__]. rewrite Hh, Hc, Hl.
  apply falsy_false_iff in Hne. rewrite Hne, Hk. reflexivity.
Qed.

(** A run that is reported complete went through every stage. *)
Lemma ingest_documents_complete (fuel : nat) (directory : str) (w w' : W)
    (n : Z) :
  Main.ingest_documents config get post_create post_insert
    http_error_message SentenceTransformer model_encode_batch
    load_directory now_isoformat fuel directory w
  = Some (w', Returned (Main.IngestionComplete n)) ->
  exists w2 w3 documents chunks w4 self' embeddings,
    load_directory directory w2 = (w3, Returned documents)
    /\ documents <> []
    /\ TextChunker.chunk_documents fuel
         (TextChunker.mk (Main.CHUNK_SIZE config) (Main.CHUNK_OVERLAP config))
         documents = Some chunks
    /\ EmbeddingModel.encode_batch SentenceTransformer model_encode_batch
         (EmbeddingModel.__init__ (Main.EMBEDDING_MODEL config))
         (map ChunkInfo.chunk_text chunks) 32 w3
       = (self', w4, Ok embeddings)
    /\ Main.insert_batches config post_insert http_error_message
         (EndeeClientIO.__init__ (Main.ENDEE_URL config))
         (Main.batches 100
            (snd (Main.prepare_vectors now_isoformat
                    (combine chunks embeddings) [] w4)))
         0 (fst (Main.prepare_vectors now_isoformat
                   (combine chunks embeddings) [] w4))
       = (w', Returned n).
Proof.
  unfold Main.ingest_documents. cbn [TextChunker.__init__].
  destruct (EndeeClientIO.health_check _ _ _) as [w1 [[|]|r]];
    try discriminate.
  destruct (EndeeClientIO.create_collection _ _ _ _ _ _) as [w2 [created|r]];
    [|destruct (caught r); discriminate].
  destruct (load_directory directory w2) as [w3 [documents|r]] eqn:Hl;
    [|discriminate].
  destruct (falsy documents) eqn:Hf; [discriminate|].
  destruct (TextChunker.chunk_documents _ _ _) as [chunks|] eqn:Hk;
    [|discriminate].
  destruct (EmbeddingModel.encode_batch _ _ _ _ _ _)
    as [[self' w4] [embeddings|e]] eqn:He; [|discriminate].
  destruct (Main.prepare_vectors _ _ _ _) as [w5 vectors] eqn:Hp.
  destruct (Main.insert_batches _ _ _ _ _ _ _) as [w6 [total|r]] eqn:Hi;
    [|discriminate].
  intros H. injection H as <- <-.
  exists w2, w3, documents, chunks, w4, self', embeddings.
  split; [exact Hl|]. split; [apply falsy_false_iff, Hf|].
  split; [exact Hk|]. split; [exact He|].
  rewrite Hp. exact Hi.
Qed.
End IngestRun.

(** X27: when the health check answers [False] (the store is down, or
    answers with a status other than 200), [ingest_documents] ends there:
    it returns with the world as the one request to [/health] left it; no
    collection is created, no directory read, nothing inserted. *)
Theorem ingest_documents_stops_when_store_is_down :
  forall (W Model : Type) (config : Main.Config)
         (get : str -> Z -> W -> W * result EndeeClient.Response)
         (post_create : str -> EndeeClientIO.CreatePayload -> Z -> W
                        -> W * result EndeeClient.Response)
         (post_insert : str -> list EndeeClientIO.FormattedVector -> Z -> W
                        -> W * result EndeeClient.Response)
         (http_error_message : EndeeClient.Response -> str)
         (SentenceTransformer : str -> W -> W * result Model)
         (model_encode_batch :
            Model -> list str -> Z -> bool -> W
            -> W * result (list (list float)))
         (load_directory : str -> io W (list (str * str)))
         (now_isoformat : W -> W * str)
         (fuel : nat) (directory : str) (w : W),
    snd (EndeeClientIO.health_check get
           (EndeeClientIO.__init__ (Main.ENDEE_URL config)) w)
    = Returned false ->
    Main.ingest_documents config get post_create post_insert
      http_error_message SentenceTransformer model_encode_batch
      load_directory now_isoformat fuel directory w
    = Some (fst (get (EndeeClient.base_url
                        (EndeeClientIO.__init__ (Main.ENDEE_URL config))
                      ++ py "/health") 5 w),
            Returned Main.NotAccessible).
Proof.
  intros W Model config get post_create post_insert http_error_message
    SentenceTransformer model_encode_batch load_directory now_isoformat
    fuel directory w H.
  unfold Main.ingest_documents. cbn [TextChunker.__init__].
  unfold EndeeClientIO.health_check in *.
  destruct (get _ 5 w) as [w1 [response|e]]; cbn [fst snd] in *.
  - injection H as ->. reflexivity.
  - destruct (EndeeClientIO.is_RequestException e); [|discriminate H].
    reflexivity.
Qed.

Lemma ingest_documents_stops_when_store_is_down_witness :
  Main.ingest_documents Fixtures.config Fixtures.get_down
    Fixtures.post_create_ok (Fixtures.post_insert_with 200)
    Fixtures.error_message Fixtures.loader Fixtures.batch_encoder
    Fixtures.load_two Fixtures.clock 5 (py "data/documents") 0%nat
  = Some (1%nat, Returned Main.NotAccessible).
Proof.
  apply (ingest_documents_stops_when_store_is_down nat nat Fixtures.config
           Fixtures.get_down Fixtures.post_create_ok
           (Fixtures.post_insert_with 200) Fixtures.error_message
           Fixtures.loader Fixtures.batch_encoder Fixtures.load_two
           Fixtures.clock 5 (py "data/documents") 0%nat).
  reflexivity.
Defined.

(** X28: when [ingest_documents] reports a complete run, the number of
    vectors it reports as inserted lies between 0 and the number of chunks
    of the documents it loaded. *)
Theorem ingest_documents_count_is_bounded :
  forall (W Model : Type) (config : Main.Config)
         (get : str -> Z -> W -> W * result EndeeClient.Response)
         (post_create : str -> EndeeClientIO.CreatePayload -> Z -> W
                        -> W * result EndeeClient.Response)
         (post_insert : str -> list EndeeClientIO.FormattedVector -> Z -> W
                        -> W * result EndeeClient.Response)
         (http_error_message : EndeeClient.Response -> str)
         (SentenceTransformer : str -> W -> W * result Model)
         (model_encode_batch :
            Model -> list str -> Z -> bool -> W
            -> W * result (list (list float)))
         (load_directory : str -> io W (list (str * str)))
         (now_isoformat : W -> W * str)
         (fuel : nat) (directory : str) (w w' : W) (total_inserted : Z),
    Main.ingest_documents config get post_create post_insert
      http_error_message SentenceTransformer model_encode_batch
      load_directory now_isoformat fuel directory w
    = Some (w', Returned (Main.IngestionComplete total_inserted)) ->
    exists w2 w3 documents chunks,
      load_directory directory w2 = (w3, Returned documents)
      /\ TextChunker.chunk_documents fuel
           (TextChunker.mk (Main.CHUNK_SIZE config)
              (Main.CHUNK_OVERLAP config))
           documents = Some chunks
      /\ 0 <= total_inserted <= Z.of_nat (length chunks).
Proof.
  intros W Model config get post_create post_insert http_error_message
    SentenceTransformer model_encode_batch load_directory now_isoformat
    fuel directory w w' total_inserted H.
  destruct (ingest_documents_complete _ _ _ _ _ _ _ _ _ _ _ _ _ _ H)
    as [w2 [w3 [documents [chunks [w4 [self' [embeddings
         [Hl [_ [Hk [_ Hi]]]]]]]]]]].
  exists w2, w3, documents, chunks. split; [exact Hl|]. split; [exact Hk|].
  apply insert_batches_bounds in Hi.
  destruct (batches_partition_aux 100
              (snd (Main.prepare_vectors now_isoformat
                      (combine chunks embeddings) [] w4)) ltac:(lia))
    as [Hcat _].
  rewrite Hcat in Hi.
  destruct (prepare_vectors_acc now_isoformat (combine chunks embeddings)
              [] w4) as [made [Hmade [Hid _]]].
  rewrite Hmade in Hi. cbn [app] in Hi.
  assert (length made <= length chunks)%nat.
  { rewrite <- (length_map Vector.id), Hid, length_map, length_combine. lia. }
  lia.
Qed.

Lemma ingest_documents_count_is_bounded_witness :
  exists (w2 w3 : nat) documents chunks,
    Fixtures.load_two (py "data/documents") w2 = (w3, Returned documents)
    /\ TextChunker.chunk_documents 5
         (TextChunker.mk (Main.CHUNK_SIZE Fixtures.config)
            (Main.CHUNK_OVERLAP Fixtures.config))
         documents = Some chunks
    /\ 0 <= 4 <= Z.of_nat (length chunks).
Proof.
  apply (ingest_documents_count_is_bounded nat nat Fixtures.config
           Fixtures.get_up Fixtures.post_create_ok
           (Fixtures.post_insert_with 200) Fixtures.error_message
           Fixtures.loader Fixtures.batch_encoder Fixtures.load_two
           Fixtures.clock 5 (py "data/documents") 0%nat 10%nat 4).
  vm_compute. reflexivity.
Defined.

(** X29: a failure of the embedder is not caught by [ingest_documents]:
    when the store is up, the collection is there and the documents are
    chunked, an exception of the model's constructor leaves
    [ingest_documents] as it is, with the world as the constructor left
    it; nothing is inserted. *)
Theorem ingest_documents_embedder_failure :
  forall (W Model : Type) (config : Main.Config)
         (get : str -> Z -> W -> W * result EndeeClient.Response)
         (post_create : str -> EndeeClientIO.CreatePayload -> Z -> W
                        -> W * result EndeeClient.Response)
         (post_insert : str -> list EndeeClientIO.FormattedVector -> Z -> W
                        -> W * result EndeeClient.Response)
         (http_error_message : EndeeClient.Response -> str)
         (SentenceTransformer : str -> W -> W * result Model)
         (model_encode_batch :
            Model -> list str -> Z -> bool -> W
            -> W * result (list (list float)))
         (load_directory : str -> io W (list (str * str)))
         (now_isoformat : W -> W * str)
         (fuel : nat) (directory : str) (w w1 w2 w3 w4 : W)
         (created : EndeeClientIO.create_result)
         (documents : list (str * str)) (chunks : list ChunkInfo.t)
         (e : exception),
    EndeeClientIO.health_check get
      (EndeeClientIO.__init__ (Main.ENDEE_URL config)) w
    = (w1, Returned true) ->
    EndeeClientIO.create_collection post_create http_error_message
      (EndeeClientIO.__init__ (Main.ENDEE_URL config))
      (Main.COLLECTION_NAME config) (Main.EMBEDDING_DIMENSION config) w1
    = (w2, Returned created) ->
    load_directory directory w2 = (w3, Returned documents) ->
    documents <> [] ->
    TextChunker.chunk_documents fuel
      (TextChunker.mk (Main.CHUNK_SIZE config) (Main.CHUNK_OVERLAP config))
      documents = Some chunks ->
    SentenceTransformer (Main.EMBEDDING_MODEL config) w3 = (w4, Raise e) ->
    Main.ingest_documents config get post_create post_insert
      http_error_message SentenceTransformer model_encode_batch
      load_directory now_isoformat fuel directory w
    = Some (w4, Raised (Passed e)).
Proof.
  intros W Model config get post_create post_insert http_error_message
    SentenceTransformer model_encode_batch load_directory now_isoformat
    fuel directory w w1 w2 w3 w4 created documents chunks e
    Hh Hc Hl Hne Hk He.
  rewrite (ingest_documents_to_chunks config get post_create post_insert
             http_error_message SentenceTransformer model_encode_batch
             load_directory now_isoformat fuel directory w w1 w2 w3
             created documents chunks Hh Hc Hl Hne Hk).
  unfold EmbeddingModel.encode_batch, EmbeddingModel._load_model,
    EmbeddingModel.__init__.
  cbn [EmbeddingModel._model EmbeddingModel.model_name].
  rewrite He. reflexivity.
Qed.

Lemma ingest_documents_embedder_failure_witness :
  Main.ingest_documents Fixtures.config Fixtures.get_up
    Fixtures.post_create_ok (Fixtures.post_insert_with 200)
    Fixtures.error_message Fixtures.loader_failing Fixtures.batch_encoder
    Fixtures.load_two Fixtures.clock 5 (py "data/documents") 0%nat
  = Some (4%nat,
          Raised (Passed (mkException RuntimeError
                            (py "model could not be loaded")))).
Proof.
  apply (ingest_documents_embedder_failure nat nat Fixtures.config
           Fixtures.get_up Fixtures.post_create_ok
           (Fixtures.post_insert_with 200) Fixtures.error_message
           Fixtures.loader_failing Fixtures.batch_encoder Fixtures.load_two
           Fixtures.clock 5 (py "data/documents") 0%nat 1%nat 2%nat 3%nat
           4%nat (EndeeClientIO.CreateBody EndeeClient.JsonOther)
           [(py "a", py "x y z u v"); (py "b", py "q")]
           [ChunkInfo.mk (py "a") 1 (py "x y z") 3;
            ChunkInfo.mk (py "a") 2 (py "z u v") 3;
            ChunkInfo.mk (py "a") 3 (py "v") 3;
            ChunkInfo.mk (py "b") 1 (py "q") 1]).
  - reflexivity.
  - reflexivity.
  - reflexivity.
  - discriminate.
  - vm_compute. reflexivity.
  - reflexivity.
Defined.

(* ================================================================== *)
(** * Ingestion: the ids of the vectors *)
(* ================================================================== *)

Section VectorIds.

Lemma py_inj (s1 s2 : string) : py s1 = py s2 -> s1 = s2.
Proof.
  unfold py. revert s2.
  induction s1 as [|a s1 IH]; intros [|b s2] H; try discriminate H.
  - reflexivity.
  - cbn [list_ascii_of_string map] in H. injection H as Hab Hs.
    apply (f_equal ascii_of_N) in Hab. rewrite !ascii_N_embedding in Hab.
    subst b. f_equal. apply IH, Hs.
Qed.

Lemma to_int_proper (n : Z) :
  Z.to_int n <> Decimal.Pos Decimal.Nil
  /\ Z.to_int n <> Decimal.Neg Decimal.Nil.
Proof.
  destruct n as [|p|p]; cbn [Z.to_int]; split; try discriminate;
    intros H; injection H as H;
    exact (DecimalPos.Unsigned.to_uint_nonnil p H).
Qed.

(** [str] of an integer tells the integer. *)
Lemma str_of_int_inj (a b : Z) : str_of_int a = str_of_int b -> a = b.
Proof.
  unfold str_of_int. intros H. apply py_inj in H.
  apply (f_equal NilZero.int_of_string) in H.
  destruct (to_int_proper a) as [Ha1 Ha2].
  destruct (to_int_proper b) as [Hb1 Hb2].
  rewrite !NilZero.isi in H by assumption.
  injection H as H. apply DecimalZ.to_int_inj, H.
Qed.

Lemma string_of_uint_digits (d : Decimal.uint) :
  Forall (fun c => QuerySpec.is_digit c = true)
         (py (NilEmpty.string_of_uint d)).
Proof.
  induction d; cbn [NilEmpty.string_of_uint py list_ascii_of_string map];
    constructor; try reflexivity; assumption.
Qed.

(** [str] of a natural number is made of digits. *)
Lemma str_of_int_digits (n : Z) :
  0 <= n -> Forall (fun c => QuerySpec.is_digit c = true) (str_of_int n).
Proof.
  intros Hn. unfold str_of_int. destruct n as [|p|p]; [| |lia].
  - repeat constructor.
  - cbn [Z.to_int NilZero.string_of_int]. unfold NilZero.string_of_uint.
    destruct (Pos.to_uint p) eqn:Hp;
      first [ exfalso; exact (DecimalPos.Unsigned.to_uint_nonnil p Hp)
            | rewrite <- Hp; apply string_of_uint_digits ].
Qed.

(** A run of characters with a property, closed by one without it, is
    told apart from what follows. *)
Lemma run_unique (P : N -> bool) (a b : str) (x y : N) (r s : str) :
  Forall (fun c => P c = true) a -> Forall (fun c => P c = true) b ->
  P x = false -> P y = false ->
  a ++ x :: r = b ++ y :: s -> a = b /\ x = y /\ r = s.
Proof.
  intros Ha. revert b.
  induction Ha as [|c a Hc Ha IH]; intros b Hb Hx Hy H.
  - destruct Hb as [|d b Hd Hb]; cbn [app] in H.
    + injection H as -> ->. auto.
    + injection H as -> _. congruence.
  - destruct Hb as [|d b Hd Hb]; cbn [app] in H.
    + injection H as -> _. congruence.
    + injection H as -> H. destruct (IH b Hb Hx Hy H) as [-> [-> ->]]. auto.
Qed.

(** The id of a vector tells the file name and the number of the chunk. *)
Lemma vector_id_inj (c1 c2 : ChunkInfo.t) :
  0 <= ChunkInfo.chunk_id c1 -> 0 <= ChunkInfo.chunk_id c2 ->
  Main.vector_id c1 = Main.vector_id c2 ->
  ChunkInfo.filename c1 = ChunkInfo.filename c2
  /\ ChunkInfo.chunk_id c1 = ChunkInfo.chunk_id c2.
Proof.
  intros H1 H2 H. unfold Main.vector_id in H.
  apply (f_equal (@rev N)) in H. rewrite !rev_app_distr in H.
  change (rev (py "_chunk_")) with (95%N :: rev (py "_chunk")) in H.
  rewrite <- !app_assoc in H. cbn [app] in H.
  apply (run_unique QuerySpec.is_digit) in H; try reflexivity.
  - destruct H as [Hd [_ Hf]].
    apply (f_equal (@rev N)) in Hd. rewrite !rev_involutive in Hd.
    apply app_inv_head in Hf.
    apply (f_equal (@rev N)) in Hf. rewrite !rev_involutive in Hf.
    split; [exact Hf | apply str_of_int_inj, Hd].
  - apply Forall_rev, str_of_int_digits, H1.
  - apply Forall_rev, str_of_int_digits, H2.
Qed.

Lemma enumerate_from (A : Type) (l : list A) :
  forall (start i : Z) (x : A),
    In (i, x) (enumerate start l) -> start <= i.
Proof.
  induction l as [|y l IH]; intros start i x H; cbn [enumerate] in H.
  - destruct H.
  - destruct H as [H|H]; [injection H as <- _; lia|].
    apply IH in H. lia.
Qed.

Lemma chunk_infos_elements (filename : str) (chunks : list str)
    (c : ChunkInfo.t) :
  In c (chunk_infos filename chunks) ->
  ChunkInfo.filename c = filename /\ 1 <= ChunkInfo.chunk_id c.
Proof.
  unfold chunk_infos. intros H. apply in_map_iff in H.
  destruct H as [[idx text] [<- Hin]]. apply enumerate_from in Hin.
  split; [reflexivity | exact Hin].
Qed.

Lemma chunk_infos_ids_distinct (filename : str) (chunks : list str) :
  NoDup (map Main.vector_id (chunk_infos filename chunks)).
Proof.
  apply NoDup_map_NoDup_ForallPairs.
  - intros c1 c2 H1 H2 Hid.
    destruct (chunk_infos_elements _ _ _ H1) as [Hf1 Hc1].
    destruct (chunk_infos_elements _ _ _ H2) as [Hf2 Hc2].
    destruct (vector_id_inj c1 c2 ltac:(lia) ltac:(lia) Hid) as [_ Hidx].
    unfold chunk_infos in H1, H2.
    apply in_map_iff in H1. destruct H1 as [[i1 t1] [<- Hin1]].
    apply in_map_iff in H2. destruct H2 as [[i2 t2] [<- Hin2]].
    cbn [ChunkInfo.chunk_id] in Hidx. subst i2.
    assert (Hsame : forall (l : list str) (start i : Z) (x y : str),
      In (i, x) (enumerate start l) -> In (i, y) (enumerate start l) ->
      x = y).
    { clear. induction l as [|z l IH]; intros start i x y Hx Hy;
        cbn [enumerate] in *; [destruct Hx|].
      destruct Hx as [Hx|Hx]; destruct Hy as [Hy|Hy].
      - congruence.
      - injection Hx as <- _. apply enumerate_from in Hy. lia.
      - injection Hy as <- _. apply enumerate_from in Hx. lia.
      - exact (IH _ _ _ _ Hx Hy). }
    rewrite (Hsame _ _ _ _ _ Hin1 Hin2). reflexivity.
  - unfold chunk_infos. apply (NoDup_map_inv ChunkInfo.chunk_id).
    rewrite map_map.
    rewrite (map_ext _ fst) by (intros [idx text]; reflexivity).
    rewrite enumerate_fst. apply Finite.Injective_map_NoDup.
    + intros i j H. lia.
    + apply seq_NoDup.
Qed.

Lemma chunk_documents_elements (self : TextChunker.t) (fuel : nat)
    (documents : list (str * str)) :
  forall out,
    chunk_documents fuel self documents = Some out ->
    Forall (fun c => In (ChunkInfo.filename c) (map fst documents)
                     /\ 1 <= ChunkInfo.chunk_id c) out.
Proof.
  induction documents as [|[filename content] rest IH]; intros out H.
  - injection H as <-. constructor.
  - change ((filename, content) :: rest)
      with ([(filename, content)] ++ rest) in H.
    rewrite chunk_documents_concat in H.
    unfold chunk_documents at 1 in H. cbn [chunk_documents_loop] in H.
    destruct (chunk_text fuel self content) as [chunks|]; [|discriminate H].
    destruct (chunk_documents fuel self rest) as [out'|]; [|discriminate H].
    injection H as <-. cbn [app]. apply Forall_app. split.
    + apply Forall_forall. intros c Hc.
      destruct (chunk_infos_elements _ _ _ Hc) as [-> Hid].
      split; [left; reflexivity | exact Hid].
    + specialize (IH out' eq_refl). eapply Forall_impl; [|exact IH].
      intros c [Hf Hid]. split; [right; exact Hf | exact Hid].
Qed.
End VectorIds.

(** X30: when the documents have different file names, the vectors of one
    run of the ingestion have different ids: the id of a vector, made of
    the file name and the number of the chunk, is shared by no two chunks
    of the output of [chunk_documents]. *)
Theorem vector_ids_are_distinct :
  forall (self : TextChunker.t) (fuel : nat) (documents : list (str * str))
         (chunks : list ChunkInfo.t),
    NoDup (map fst documents) ->
    chunk_documents fuel self documents = Some chunks ->
    NoDup (map Main.vector_id chunks).
Proof.
  intros self fuel documents.
  induction documents as [|[filename content] rest IH]; intros chunks Hnd H.
  - injection H as <-. constructor.
  - change ((filename, content) :: rest)
      with ([(filename, content)] ++ rest) in H.
    rewrite chunk_documents_concat in H.
    unfold chunk_documents at 1 in H. cbn [chunk_documents_loop] in H.
    destruct (chunk_text fuel self content) as [texts|]; [|discriminate H].
    destruct (chunk_documents fuel self rest) as [out|] eqn:Hrest;
      [|discriminate H].
    injection H as <-. cbn [app map fst] in *. rewrite map_app.
    inversion Hnd as [|f fs Hnotin Hnd']; subst.
    apply NoDup_app.
    + apply chunk_infos_ids_distinct.
    + apply IH; [exact Hnd' | reflexivity].
    + intros id Hin1 Hin2.
      apply in_map_iff in Hin1. destruct Hin1 as [c1 [<- Hc1]].
      apply in_map_iff in Hin2. destruct Hin2 as [c2 [Hid Hc2]].
      destruct (chunk_infos_elements _ _ _ Hc1) as [Hf1 Hi1].
      pose proof (chunk_documents_elements self fuel rest out Hrest) as Hel.
      rewrite Forall_forall in Hel. destruct (Hel c2 Hc2) as [Hf2 Hi2].
      destruct (vector_id_inj c2 c1 ltac:(lia) ltac:(lia) Hid) as [Hf _].
      apply Hnotin. rewrite <- Hf1, <- Hf. exact Hf2.
Qed.

Lemma vector_ids_are_distinct_witness :
  NoDup (map Main.vector_id
           [ChunkInfo.mk (py "a") 1 (py "x y z") 3;
            ChunkInfo.mk (py "a") 2 (py "z u v") 3;
            ChunkInfo.mk (py "a") 3 (py "v") 3;
            ChunkInfo.mk (py "b") 1 (py "q") 1]).
Proof.
  apply (vector_ids_are_distinct (TextChunker.mk 3 1) 5
           [(py "a", py "x y z u v"); (py "b", py "q")]).
  - repeat constructor; simpl; intuition discriminate.
  - vm_compute. reflexivity.
Defined.
